(** * guble, package [cluster]: the node's local view of the cluster

    A shallow embedding of [server/cluster/cluster.go].  The methods of
    [*Cluster] are computations over a [World] holding the receiver, the
    [memberlist] instance it points to, the calls made to collaborators
    outside the file, and the goroutines started with [go].  *)

From Stdlib Require Import ZArith List String Bool Lia Permutation.
From Stdlib Require Import DecimalString.
From Stdlib Require DecimalZ DecimalFacts Ascii.
From Stdlib.Strings Require Import Byte.
Import ListNotations.

Open Scope string_scope.
Open Scope list_scope.
Open Scope Z_scope.

(** ** What the file uses of the Go language and its standard library *)

Module Go.

(** The interface [error]; [nil] is [None]. *)
Definition error := option string.

Definition errors_New (text : string) : error := Some text.

(** A call either returns or panics. *)
Inductive outcome (A : Type) : Type :=
| Returned (a : A)
| Panicked (v : string).

Arguments Returned {A} a.
Arguments Panicked {A} v.

Definition nil_dereference : string :=
  "runtime error: invalid memory address or nil pointer dereference".

(** Go code over a mutable state [S]: a call returns a value or panics,
    and leaves a state behind either way. *)
Definition M (S A : Type) : Type := S -> outcome A * S.

Definition ret {S A} (a : A) : M S A := fun s => (Returned a, s).

Definition bind {S A B} (m : M S A) (k : A -> M S B) : M S B :=
  fun s =>
    match m s with
    | (Returned a, s') => k a s'
    | (Panicked v, s') => (Panicked v, s')
    end.

Definition panic {S A} (v : string) : M S A := fun s => (Panicked v, s).

(** [for _, x := range xs { body }] *)
Fixpoint for_range {S A} (xs : list A) (body : A -> M S unit) : M S unit :=
  match xs with
  | [] => ret tt
  | x :: rest => bind (body x) (fun _ => for_range rest body)
  end.

(** [int] is 64 bits wide; [++] wraps around. *)
Definition int_wrap (z : Z) : Z := (z + 2 ^ 63) mod 2 ^ 64 - 2 ^ 63.

(** [fmt.Sprintf("%d", i)] and [strconv.Itoa(i)]. *)
Definition Sprintf_d (i : Z) : string := NilZero.string_of_int (Z.to_int i).

Definition Itoa (i : Z) : string := Sprintf_d i.

End Go.

Import Go.

Declare Scope go_scope.
Delimit Scope go_scope with go.
Notation "x <- m ;; k" := (bind m (fun x => k))
  (at level 61, m at next level, right associativity) : go_scope.
Notation "m ;; k" := (bind m (fun _ => k))
  (at level 61, right associativity) : go_scope.
Open Scope go_scope.

(** [net.TCPAddr]; [IP] is kept as the text [IP.String()] renders. *)
Module net.

Record TCPAddr := { IP : string; Port : Z }.

End net.

(** ** The membership provider, [github.com/hashicorp/memberlist] *)

Module memberlist.

Record Node := { Name : string; Addr : string; Port : Z }.

Definition Node_eq_dec (x y : Node) : {x = y} + {x <> y}.
Proof.
  decide equality; auto using string_dec, Z.eq_dec.
Defined.

(** The fields of [memberlist.Config] that [New] sets on top of
    [DefaultLANConfig()]. *)
Record Config := { ConfigName : string; BindAddr : string; BindPort : Z }.

(** The operations of [*memberlist.Memberlist] that the file calls, on a
    provider whose state has type [P]. *)
Class Memberlist (P : Type) := {
  Create : Config -> P + string;
  Join : P -> list string -> (Z * error) * P;
  Shutdown : P -> error * P;
  GetHealthScore : P -> Z;
  Members : P -> list Node;
  SendToTCP : P -> Node -> list byte -> error * P
}.

End memberlist.

(** ** Data of package [cluster] *)

(** The struct [Config]; [Remotes] holds the addresses its pointers refer
    to. *)
Module Config.

Record t := {
  ID : Z;
  Host : string;
  Port : Z;
  Remotes : list net.TCPAddr;
  HealthScoreThreshold : Z
}.

End Config.

(** Modelled from the spec: the declaration of the cluster message and of its
    kinds (file message.go of the package) is missing.  The envelope has an
    integer sender node id, a kind that is either [stringMessage] or the
    application message kind, which cluster.go calls [gubleMessage], and an
    opaque body. *)
Inductive messageType : Type := gubleMessage | stringMessage.

(** Modelled from the spec: the struct [message] of message.go, with the
    fields cluster.go sets and reads; [Type_] is its field [Type]. *)
Record message := { NodeID : Z; Type_ : messageType; Body : list byte }.

(** The comparison [cmsg.Type == gubleMessage]. *)
Definition messageType_eqb (a b : messageType) : bool :=
  match a, b with
  | gubleMessage, gubleMessage | stringMessage, stringMessage => true
  | _, _ => false
  end.

(** ** The codec of the cluster message

    The file message.go, which holds it, is not among the sources; the
    definitions of this module follow the spec. *)

Module Codec.

Definition byte_of_Z (z : Z) : byte :=
  match Byte.of_N (Z.to_N (z mod 256)) with
  | Some b => b
  | None => x00
  end.

Definition Z_of_byte (b : byte) : Z := Z.of_N (Byte.to_N b).

(** [n] bytes, most significant first. *)
Fixpoint put_uint (n : nat) (z : Z) : list byte :=
  match n with
  | O => []
  | S n' => put_uint n' (z / 256) ++ [byte_of_Z z]
  end.

Definition get_uint (bs : list byte) : Z :=
  fold_left (fun acc b => acc * 256 + Z_of_byte b) bs 0.

(** The first [n] bytes and the rest, when there are that many. *)
Definition take (n : nat) (bs : list byte) : option (list byte * list byte) :=
  if (List.length bs <? n)%nat then None else Some (firstn n bs, skipn n bs).

(** Modelled from the spec: the single-byte kind discriminant, missing with
    message.go. *)
Definition byte_of_kind (t : messageType) : byte :=
  match t with
  | gubleMessage => x00
  | stringMessage => x01
  end.

(** Modelled from the spec: reading the kind discriminant back. *)
Definition kind_of_byte (b : byte) : option messageType :=
  match b with
  | x00 => Some gubleMessage
  | x01 => Some stringMessage
  | _ => None
  end.

(** Modelled from the spec: the codec (methods [encode] and [decode] of
    file message.go) is missing.  The spec fixes three logical fields, an
    integer sender node id, a single-byte kind discriminant and a
    variable-length opaque body, an [encode] that is total and
    deterministic, and a [decode] that fails on empty, truncated or
    structurally invalid bytes; it leaves the byte layout to the
    implementation.  The layout taken here is: the node id as a 64-bit
    two's complement integer, one byte for the kind, the length of the
    body as a 64-bit integer, then the body. *)
Definition encode (cmsg : message) : list byte + string :=
  inl (put_uint 8 (NodeID cmsg mod 2 ^ 64)
         ++ [byte_of_kind (Type_ cmsg)]
         ++ put_uint 8 (Z.of_nat (List.length (Body cmsg)))
         ++ Body cmsg).

(** Modelled from the spec: see [encode]. *)
Definition decode (cmsgBytes : list byte) : message + string :=
  match take 8 cmsgBytes with
  | None => inr "unexpected end of cluster message"
  | Some (id, rest) =>
      match rest with
      | [] => inr "unexpected end of cluster message"
      | k :: rest =>
          match take 8 rest with
          | None => inr "unexpected end of cluster message"
          | Some (len, body) =>
              if get_uint len =? Z.of_nat (List.length body) then
                match kind_of_byte k with
                | Some t =>
                    inl {| NodeID := int_wrap (get_uint id);
                           Type_ := t;
                           Body := body |}
                | None => inr "unknown kind of cluster message"
                end
              else inr "wrong length of cluster message body"
          end
      end
  end.

(** Modelled from the spec: its constructible envelopes, taken as those a
    Go program can build: [NodeID] is an [int], and the length of a slice is
    an [int]. *)
Definition constructible (e : message) : Prop :=
  - 2 ^ 63 <= NodeID e < 2 ^ 63 /\ Z.of_nat (List.length (Body e)) < 2 ^ 63.

End Codec.

(** The interface [MessageHandler], for handlers of type [Handler] consuming
    [protocol.Message] values of type [Message]. *)
Class MessageHandlerInterface (Message Handler : Type) := {
  HandleMessage : Handler -> Message -> outcome error
}.

(** Levels of the logrus calls made on the package's [logger]. *)
Inductive level : Type := PanicLevel | ErrorLevel | DebugLevel.

Section Cluster.

Context {P : Type} {provider_ops : memberlist.Memberlist P}.
Context {Message Handler : Type}
        {handler_ops : MessageHandlerInterface Message Handler}.

(** Package [protocol] and the codec of the cluster message are outside
    the file: [protocol.ParseMessage], the method [Bytes] of
    [protocol.Message] (called on a pointer, [None] when it is nil), the
    method [encode] of [message] and [decode] are parameters. *)
Variable ParseMessage : list byte -> Message + string.
Variable Bytes : option Message -> outcome (list byte).
Variable encode : message -> list byte + string.
Variable decode : list byte -> message + string.

(** The struct [Cluster], as [New] builds it: [Config] is the configuration
    its pointer refers to, and the field [memberlist] points to the provider
    kept in the [World]; [New] is the only place that sets it. *)
Record Cluster := {
  Config : Config.t;
  MessageHandler : option Handler;
  name : string;
  broadcasts : list (list byte);
  numJoins : Z;
  numLeaves : Z;
  numUpdates : Z
}.

Definition set_broadcasts (b : list (list byte)) (c : Cluster) : Cluster :=
  {| Config := Config c; MessageHandler := MessageHandler c;
     name := name c; broadcasts := b; numJoins := numJoins c;
     numLeaves := numLeaves c; numUpdates := numUpdates c |}.

Definition set_numJoins (n : Z) (c : Cluster) : Cluster :=
  {| Config := Config c; MessageHandler := MessageHandler c;
     name := name c; broadcasts := broadcasts c; numJoins := n;
     numLeaves := numLeaves c; numUpdates := numUpdates c |}.

Definition set_numLeaves (n : Z) (c : Cluster) : Cluster :=
  {| Config := Config c; MessageHandler := MessageHandler c;
     name := name c; broadcasts := broadcasts c; numJoins := numJoins c;
     numLeaves := n; numUpdates := numUpdates c |}.

Definition set_numUpdates (n : Z) (c : Cluster) : Cluster :=
  {| Config := Config c; MessageHandler := MessageHandler c;
     name := name c; broadcasts := broadcasts c; numJoins := numJoins c;
     numLeaves := numLeaves c; numUpdates := n |}.

(** A statement [go cluster.sendToNode(node, msgBytes)]. *)
Inductive goroutine : Type :=
| go_sendToNode (node : memberlist.Node) (msgBytes : list byte).

(** Calls leaving the file. *)
Inductive event : Type :=
| Log (lvl : level) (msg : string)
| CallJoin (existing : list string)
| CallShutdown
| CallGetHealthScore
| CallMembers
| CallSendToTCP (to : memberlist.Node) (msg : list byte)
| CallHandleMessage (h : Handler) (m : Message).

Record World := {
  receiver : Cluster;
  provider : P;
  trace : list event;
  spawned : list goroutine
}.

Definition emit (e : event) : M World unit :=
  fun w =>
    (Returned tt,
     {| receiver := receiver w; provider := provider w;
        trace := trace w ++ [e]; spawned := spawned w |}).

Definition get_cluster : M World Cluster :=
  fun w => (Returned (receiver w), w).

Definition put_cluster (c : Cluster) : M World unit :=
  fun w =>
    (Returned tt,
     {| receiver := c; provider := provider w;
        trace := trace w; spawned := spawned w |}).

Definition get_provider : M World P := fun w => (Returned (provider w), w).

Definition put_provider (p : P) : M World unit :=
  fun w =>
    (Returned tt,
     {| receiver := receiver w; provider := p;
        trace := trace w; spawned := spawned w |}).

Definition go (g : goroutine) : M World unit :=
  fun w =>
    (Returned tt,
     {| receiver := receiver w; provider := provider w;
        trace := trace w; spawned := spawned w ++ [g] |}).

(** *** Calls on the package's [logger] (logrus) *)

Definition logger_Debug (msg : string) : M World unit :=
  emit (Log DebugLevel msg).

Definition logger_Error (msg : string) : M World unit :=
  emit (Log ErrorLevel msg).

(** [Panic] logs the entry and then panics with it, whatever the level of
    the logger; the entry is identified by its message. *)
Definition logger_Panic {A} (msg : string) : M World A :=
  emit (Log PanicLevel msg) ;; panic msg.

(** *** Calls on [cluster.memberlist] *)

Definition memberlist_Join (existing : list string) : M World (Z * error) :=
  emit (CallJoin existing) ;;
  p <- get_provider ;;
  let '(r, p') := memberlist.Join p existing in
  put_provider p' ;;
  ret r.

Definition memberlist_Shutdown : M World error :=
  emit CallShutdown ;;
  p <- get_provider ;;
  let '(err, p') := memberlist.Shutdown p in
  put_provider p' ;;
  ret err.

Definition memberlist_GetHealthScore : M World Z :=
  emit CallGetHealthScore ;;
  p <- get_provider ;;
  ret (memberlist.GetHealthScore p).

Definition memberlist_Members : M World (list memberlist.Node) :=
  emit CallMembers ;;
  p <- get_provider ;;
  ret (memberlist.Members p).

Definition memberlist_SendToTCP (to : memberlist.Node) (msg : list byte)
  : M World error :=
  emit (CallSendToTCP to msg) ;;
  p <- get_provider ;;
  let '(err, p') := memberlist.SendToTCP p to msg in
  put_provider p' ;;
  ret err.

(** The call [cluster.MessageHandler.HandleMessage(message)]. *)
Definition MessageHandler_HandleMessage (h : Handler) (m : Message)
  : M World error :=
  emit (CallHandleMessage h m) ;;
  fun w => (HandleMessage h m, w).

(** *** The functions of cluster.go *)

Definition New (config : Config.t) : World + string * list event :=
  let c := {| Config := config;
              MessageHandler := None;
              name := Sprintf_d (Config.ID config);
              broadcasts := [];
              numJoins := 0; numLeaves := 0; numUpdates := 0 |} in
  let memberlistConfig :=
    {| memberlist.ConfigName := name c;
       memberlist.BindAddr := Config.Host config;
       memberlist.BindPort := Config.Port config |} in
  match memberlist.Create memberlistConfig with
  | inr err =>
      inr (err,
           [Log ErrorLevel
              "Error when creating the internal memberlist of the cluster"])
  | inl memberlist =>
      inl {| receiver := c; provider := memberlist;
             trace := []; spawned := [] |}
  end.

Definition remotesAsStrings (cluster : Cluster) : list string :=
  fold_left
    (fun strings remote =>
       strings ++ [(net.IP remote ++ ":" ++ Itoa (net.Port remote))%string])
    (Config.Remotes (Config cluster)) [].

Definition Start : M World error :=
  logger_Debug "Starting Cluster" ;;
  cluster <- get_cluster ;;
  match MessageHandler cluster with
  | None =>
      let errorMessage :=
        "There should be a valid MessageHandler already set-up" in
      logger_Error errorMessage ;;
      ret (errors_New errorMessage)
  | Some _ =>
      r <- memberlist_Join (remotesAsStrings cluster) ;;
      let '(num, err) := r in
      match err with
      | Some _ =>
          logger_Error "Error when this node wanted to join the cluster" ;;
          ret err
      | None =>
          if num =? 0 then
            let errorMessage :=
              "No remote hosts were successfuly contacted when this node wanted to join the cluster" in
            logger_Error errorMessage ;;
            ret (errors_New errorMessage)
          else
            logger_Debug "Started Cluster" ;;
            ret None
      end
  end.

Definition Stop : M World error := memberlist_Shutdown.

Definition Check : M World error :=
  cluster <- get_cluster ;;
  healthScore <- memberlist_GetHealthScore ;;
  if healthScore >? Config.HealthScoreThreshold (Config cluster) then
    let errorMessage := "Cluster Health Score is not perfect" in
    logger_Error errorMessage ;;
    ret (errors_New errorMessage)
  else
    ret None.

Definition sendToNode (node : memberlist.Node) (msgBytes : list byte)
  : M World unit :=
  logger_Debug "Sending cluster-message to a node" ;;
  err <- memberlist_SendToTCP node msgBytes ;;
  match err with
  | Some _ => logger_Error "Error sending cluster-message to a node"
  | None => ret tt
  end.

Definition broadcastClusterMessage (cMessage : option message)
  : M World error :=
  match cMessage with
  | None =>
      let errorMessage := "Could not broadcast a nil cluster-message" in
      logger_Error errorMessage ;;
      ret (errors_New errorMessage)
  | Some cMessage =>
      match encode cMessage with
      | inr err =>
          logger_Error "Could not encode and broadcast cluster-message" ;;
          ret (Some err)
      | inl cMessageBytes =>
          members <- memberlist_Members ;;
          for_range members
            (fun node =>
               cluster <- get_cluster ;;
               if (name cluster =? memberlist.Name node)%string then ret tt
               else go (go_sendToNode node cMessageBytes)) ;;
          ret None
      end
  end.

Definition BroadcastString (sMessage : option string) : M World error :=
  logger_Debug "BroadcastString" ;;
  cluster <- get_cluster ;;
  match sMessage with
  | None => panic nil_dereference
  | Some s =>
      let cMessage := {| NodeID := Config.ID (Config cluster);
                         Type_ := stringMessage;
                         Body := list_byte_of_string s |} in
      broadcastClusterMessage (Some cMessage)
  end.

Definition BroadcastMessage (pMessage : option Message) : M World error :=
  logger_Debug "BroadcastMessage" ;;
  cluster <- get_cluster ;;
  body <- (fun w => (Bytes pMessage, w)) ;;
  let cMessage := {| NodeID := Config.ID (Config cluster);
                     Type_ := gubleMessage;
                     Body := body |} in
  broadcastClusterMessage (Some cMessage).

(** **** [memberlist.Delegate] *)

Definition NotifyMsg (msg : list byte) : M World unit :=
  logger_Debug "NotifyMsg" ;;
  match decode msg with
  | inr err => logger_Error "Decoding of cluster message failed"
  | inl cmsg =>
      logger_Debug "NotifyMsg: Received cluster message" ;;
      cluster <- get_cluster ;;
      match MessageHandler cluster with
      | Some handler =>
          if messageType_eqb (Type_ cmsg) gubleMessage then
            match ParseMessage (Body cmsg) with
            | inr err =>
                logger_Error
                  "Parsing of guble-message contained in cluster-message failed"
            | inl message =>
                MessageHandler_HandleMessage handler message ;;
                ret tt
            end
          else ret tt
      | None => ret tt
      end
  end.

Definition GetBroadcasts (overhead limit : Z) : M World (list (list byte)) :=
  cluster <- get_cluster ;;
  let b := broadcasts cluster in
  put_cluster (set_broadcasts [] cluster) ;;
  ret b.

Definition NodeMeta (limit : Z) : M World (list byte) := ret [].

Definition LocalState (join : bool) : M World (list byte) := ret [].

Definition MergeRemoteState (s : list byte) (join : bool) : M World unit :=
  ret tt.

(** **** [memberlist.EventDelegate] *)

Definition log (node : option memberlist.Node) (message : string)
  : M World unit :=
  match node with
  | None => panic nil_dereference
  | Some _ => logger_Debug message
  end.

Definition NotifyJoin (node : option memberlist.Node) : M World unit :=
  cluster <- get_cluster ;;
  put_cluster (set_numJoins (int_wrap (numJoins cluster + 1)) cluster) ;;
  log node "Cluster Node Join".

Definition NotifyLeave (node : option memberlist.Node) : M World unit :=
  cluster <- get_cluster ;;
  put_cluster (set_numLeaves (int_wrap (numLeaves cluster + 1)) cluster) ;;
  log node "Cluster Node Leave".

Definition NotifyUpdate (node : option memberlist.Node) : M World unit :=
  cluster <- get_cluster ;;
  put_cluster (set_numUpdates (int_wrap (numUpdates cluster + 1)) cluster) ;;
  log node "Cluster Node Update".

(** **** [memberlist.ConflictDelegate] *)

Definition NotifyConflict (existing other : option memberlist.Node)
  : M World unit :=
  match existing, other with
  | Some _, Some _ => logger_Panic "NotifyConflict"
  | _, _ => panic nil_dereference
  end.

(** *** Running what [go] started *)

Definition run (g : goroutine) : M World unit :=
  match g with
  | go_sendToNode node msgBytes => sendToNode node msgBytes
  end.

(** The calls of [SendToTCP] recorded in a trace, oldest first. *)
Fixpoint send_attempts (t : list event)
  : list (memberlist.Node * list byte) :=
  match t with
  | [] => []
  | CallSendToTCP to msg :: rest => (to, msg) :: send_attempts rest
  | _ :: rest => send_attempts rest
  end.

(** The call of [SendToTCP] a started goroutine makes. *)
Definition attempt_of (g : goroutine) : memberlist.Node * list byte :=
  match g with
  | go_sendToNode node msgBytes => (node, msgBytes)
  end.

Definition attempt_eq_dec (x y : memberlist.Node * list byte)
  : {x = y} + {x <> y}.
Proof.
  decide equality;
    auto using memberlist.Node_eq_dec, list_eq_dec, Byte.byte_eq_dec.
Defined.

(** The calls of [HandleMessage] recorded in a trace, oldest first. *)
Fixpoint handled (t : list event) : list (Handler * Message) :=
  match t with
  | [] => []
  | CallHandleMessage h m :: rest => (h, m) :: handled rest
  | _ :: rest => handled rest
  end.

(** The calls of [Join] recorded in a trace, oldest first. *)
Fixpoint join_attempts (t : list event) : list (list string) :=
  match t with
  | [] => []
  | CallJoin existing :: rest => existing :: join_attempts rest
  | _ :: rest => join_attempts rest
  end.

(** A broadcast call made in [w] handed the envelope [cMessage] to the
    codec: when [encode] fails on it the call returns that error and
    starts no goroutine; otherwise the call returns [nil] and the
    goroutines it starts all carry the encoding of [cMessage]. *)
Definition carries (w : World) (cMessage : message)
    (result : outcome error * World) : Prop :=
  match encode cMessage with
  | inr err =>
      fst result = Returned (Some err) /\ spawned (snd result) = spawned w
  | inl cMessageBytes =>
      fst result = Returned None
      /\ exists nodes,
           spawned (snd result) =
             spawned w ++
               map (fun node => go_sendToNode node cMessageBytes) nodes
  end.

(** What a broadcast call made in [w] that encoded its envelope to
    [cMessageBytes] owes the members listed by the provider in [w]: the
    call returns [nil] having started goroutines which, run to their end
    in any order, attempt to send [cMessageBytes] and nothing else, never
    to a member named like this node, and to every other member as many
    times as it is listed. *)
Definition fans_out (w : World) (cMessageBytes : list byte)
    (result : outcome error * World) : Prop :=
  let members := memberlist.Members (provider w) in
  let self := Sprintf_d (Config.ID (Config (receiver w))) in
  exists started,
    fst result = Returned None
    /\ spawned (snd result) = spawned w ++ started
    /\ forall order, Permutation order started ->
       exists w' sent,
         for_range order run (snd result) = (Returned tt, w')
         /\ send_attempts (trace w') = send_attempts (trace w) ++ sent
         /\ (forall node b, In (node, b) sent ->
             b = cMessageBytes /\ In node members
             /\ memberlist.Name node <> self)
         /\ (forall node, In node members ->
             memberlist.Name node <> self ->
             count_occ attempt_eq_dec sent (node, cMessageBytes)
             = count_occ memberlist.Node_eq_dec members node).

(** *** Sequences of calls *)

(** The assignment [cluster.MessageHandler = h] that the application makes
    on the exported field, between [New] and [Start]. *)
Definition set_MessageHandler (h : option Handler) (c : Cluster) : Cluster :=
  {| Config := Config c; MessageHandler := h;
     name := name c; broadcasts := broadcasts c; numJoins := numJoins c;
     numLeaves := numLeaves c; numUpdates := numUpdates c |}.

(** What can happen to a cluster: the application sets the handler or calls
    an exported method, the provider calls a delegate method, or the
    scheduler runs a goroutine of [sendToNode]. *)
Inductive call : Type :=
| call_SetMessageHandler (h : option Handler)
| call_Start
| call_Stop
| call_Check
| call_BroadcastString (sMessage : option string)
| call_BroadcastMessage (pMessage : option Message)
| call_NotifyMsg (msg : list byte)
| call_GetBroadcasts (overhead limit : Z)
| call_NodeMeta (limit : Z)
| call_LocalState (join : bool)
| call_MergeRemoteState (s : list byte) (join : bool)
| call_NotifyJoin (node : option memberlist.Node)
| call_NotifyLeave (node : option memberlist.Node)
| call_NotifyUpdate (node : option memberlist.Node)
| call_NotifyConflict (existing other : option memberlist.Node)
| call_sendToNode (node : memberlist.Node) (msgBytes : list byte).

(** The state a call leaves behind, whether it returns or panics. *)
Definition after_call (c : call) (w : World) : World :=
  match c with
  | call_SetMessageHandler h =>
      snd (put_cluster (set_MessageHandler h (receiver w)) w)
  | call_Start => snd (Start w)
  | call_Stop => snd (Stop w)
  | call_Check => snd (Check w)
  | call_BroadcastString sMessage => snd (BroadcastString sMessage w)
  | call_BroadcastMessage pMessage => snd (BroadcastMessage pMessage w)
  | call_NotifyMsg msg => snd (NotifyMsg msg w)
  | call_GetBroadcasts overhead limit => snd (GetBroadcasts overhead limit w)
  | call_NodeMeta limit => snd (NodeMeta limit w)
  | call_LocalState join => snd (LocalState join w)
  | call_MergeRemoteState s join => snd (MergeRemoteState s join w)
  | call_NotifyJoin node => snd (NotifyJoin node w)
  | call_NotifyLeave node => snd (NotifyLeave node w)
  | call_NotifyUpdate node => snd (NotifyUpdate node w)
  | call_NotifyConflict existing other => snd (NotifyConflict existing other w)
  | call_sendToNode node msgBytes => snd (sendToNode node msgBytes w)
  end.

Definition after_calls (cs : list call) (w : World) : World :=
  fold_left (fun w c => after_call c w) cs w.

Definition is_NotifyJoin (c : call) : bool :=
  match c with call_NotifyJoin _ => true | _ => false end.

Definition is_NotifyLeave (c : call) : bool :=
  match c with call_NotifyLeave _ => true | _ => false end.

Definition is_NotifyUpdate (c : call) : bool :=
  match c with call_NotifyUpdate _ => true | _ => false end.

Definition is_NotifyMsg (c : call) : bool :=
  match c with call_NotifyMsg _ => true | _ => false end.

Definition is_Start (c : call) : bool :=
  match c with call_Start => true | _ => false end.

Definition is_sendToNode (c : call) : bool :=
  match c with call_sendToNode _ _ => true | _ => false end.

(** The error entries logged in a trace, oldest first. *)
Fixpoint errors_logged (t : list event) : list string :=
  match t with
  | [] => []
  | Log ErrorLevel msg :: rest => msg :: errors_logged rest
  | _ :: rest => errors_logged rest
  end.

(** The calls of [Members] recorded in a trace. *)
Fixpoint members_calls (t : list event) : nat :=
  match t with
  | [] => O
  | CallMembers :: rest => S (members_calls rest)
  | _ :: rest => members_calls rest
  end.

End Cluster.

Arguments Cluster : clear implicits.
Arguments goroutine : clear implicits.
Arguments event : clear implicits.
Arguments World : clear implicits.
Arguments call : clear implicits.

(** ** A cluster of two nodes

    Node 1 as the integration test of the repository starts it, over a
    provider that answers from a script and a handler that accepts every
    message. *)

Module Example.

Record scripted := {
  join_answer : Z * error;
  health : Z;
  listed : list memberlist.Node
}.

#[global] Instance scripted_ops : memberlist.Memberlist scripted := {|
  memberlist.Create := fun _ =>
    inl {| join_answer := (0, None); health := 0; listed := [] |};
  memberlist.Join := fun p _ => (join_answer p, p);
  memberlist.Shutdown := fun p => (None, p);
  memberlist.GetHealthScore := health;
  memberlist.Members := listed;
  memberlist.SendToTCP := fun p _ _ => (None, p)
|}.

Inductive accepting : Type := Accepting.

#[global] Instance accepting_ops
  : MessageHandlerInterface (list byte) accepting := {|
  HandleMessage := fun _ _ => Returned None
|}.

Definition ParseMessage (b : list byte) : list byte + string :=
  match b with
  | [] => inr "empty message"
  | _ => inl b
  end.

Definition Bytes (m : option (list byte)) : outcome (list byte) :=
  match m with
  | Some b => Returned b
  | None => Panicked nil_dereference
  end.

Definition node1 : memberlist.Node :=
  {| memberlist.Name := "1"; memberlist.Addr := "0.0.0.0";
     memberlist.Port := 10000 |}.

Definition node2 : memberlist.Node :=
  {| memberlist.Name := "2"; memberlist.Addr := "0.0.0.0";
     memberlist.Port := 10001 |}.

Definition config1 : Config.t :=
  {| Config.ID := 1; Config.Host := "0.0.0.0"; Config.Port := 10000;
     Config.Remotes := [ {| net.IP := "0.0.0.0"; net.Port := 10000 |} ];
     Config.HealthScoreThreshold := 0 |}.

Definition cluster1 (h : option accepting) : Cluster accepting :=
  {| Config := config1; MessageHandler := h; name := "1";
     broadcasts := []; numJoins := 0; numLeaves := 0; numUpdates := 0 |}.

Definition world1 (h : option accepting) (answer : Z * error)
  : World scripted (list byte) accepting :=
  {| receiver := cluster1 h;
     provider := {| join_answer := answer; health := 0;
                    listed := [node1; node2] |};
     trace := []; spawned := [] |}.

Definition hello : message :=
  {| NodeID := 1; Type_ := stringMessage;
     Body := list_byte_of_string "hello" |}.

Definition publish : message :=
  {| NodeID := 2; Type_ := gubleMessage;
     Body := list_byte_of_string "/testTopic/m body" |}.

(** An application message with an empty body, which [ParseMessage]
    rejects. *)
Definition empty_publish : message :=
  {| NodeID := 2; Type_ := gubleMessage; Body := [] |}.

Definition config2 : Config.t :=
  {| Config.ID := 2; Config.Host := "0.0.0.0"; Config.Port := 10001;
     Config.Remotes := [ {| net.IP := "0.0.0.0"; net.Port := 10000 |} ];
     Config.HealthScoreThreshold := 0 |}.

(** The world [New] returns over the scripted provider. *)
Definition fresh (config : Config.t)
  : World scripted (list byte) accepting :=
  {| receiver := {| Config := config; MessageHandler := None;
                    name := Sprintf_d (Config.ID config);
                    broadcasts := []; numJoins := 0; numLeaves := 0;
                    numUpdates := 0 |};
     provider := {| join_answer := (0, None); health := 0; listed := [] |};
     trace := []; spawned := [] |}.

(** Node 2, with a handler, as node 1 lists it. *)
Definition world2 : World scripted (list byte) accepting :=
  {| receiver := {| Config := config2; MessageHandler := Some Accepting;
                    name := "2"; broadcasts := []; numJoins := 0;
                    numLeaves := 0; numUpdates := 0 |};
     provider := {| join_answer := (1, None); health := 0;
                    listed := [node1; node2] |};
     trace := []; spawned := [] |}.

(** The envelope node 1 builds for the body of [publish]. *)
Definition publish1 : message :=
  {| NodeID := 1; Type_ := gubleMessage;
     Body := list_byte_of_string "/testTopic/m body" |}.

Definition bytes_of (e : message) : list byte :=
  match Codec.encode e with
  | inl b => b
  | inr _ => []
  end.

End Example.

(** ** Package [apns]: the paths of subscription requests

    What the connector uses of package [strings], then its functions on
    request paths. *)

Module strings.

Import Ascii.
Local Open Scope string_scope.
Local Open Scope nat_scope.

(** [strings.HasPrefix(s, prefix)] *)
Definition HasPrefix (s prefix : string) : bool := String.prefix prefix s.

(** [strings.TrimPrefix(s, prefix)]: [s[len(prefix):]] when [s] has the
    prefix, [s] otherwise. *)
Definition TrimPrefix (s prefix : string) : string :=
  if HasPrefix s prefix then
    substring (String.length prefix) (String.length s - String.length prefix) s
  else s.

(** The text before and after the first byte [sep] of [s]. *)
Fixpoint cut (sep : Ascii.ascii) (s : string) : option (string * string) :=
  match s with
  | EmptyString => None
  | String c rest =>
      if Ascii.eqb c sep then Some (EmptyString, rest)
      else match cut sep rest with
           | Some (before, after) => Some (String c before, after)
           | None => None
           end
  end.

(** The loop of [SplitN]: at most [k] cuts at [sep], then the rest. *)
Fixpoint split_upto (k : nat) (sep : Ascii.ascii) (s : string) : list string :=
  match k with
  | O => [s]
  | S k' =>
      match cut sep s with
      | None => [s]
      | Some (before, after) => before :: split_upto k' sep after
      end
  end.

(** [strings.SplitN(s, sep, n)] for a separator of one byte and [n >= 0]. *)
Definition SplitN (s : string) (sep : Ascii.ascii) (n : nat) : list string :=
  match n with
  | O => []
  | S k => split_upto k sep s
  end.

End strings.

Module apns.

Import Ascii.
Local Open Scope string_scope.
Local Open Scope nat_scope.

Definition subscribePrefixPath : string := "subscribe".

(** The struct [Connector], with the field the parsing of paths reads. *)
Record Connector := { prefix : string }.

Definition removeTrailingSlash (path : string) : string :=
  if (1 <? String.length path)
     && match get (String.length path - 1) path with
        | Some c => Ascii.eqb c "/"%char
        | None => false
        end
  then substring 0 (String.length path - 1) path
  else path.

Definition parseUserIDAndDeviceID (conn : Connector) (path : string)
  : string * string * string * error :=
  let currentURLPath := removeTrailingSlash path in
  if negb (strings.HasPrefix currentURLPath (prefix conn)) then
    ("", "", "",
     errors_New "APNS request is not starting with correct prefix")
  else
    let pathAfterPrefix := strings.TrimPrefix currentURLPath (prefix conn) in
    let splitParams := strings.SplitN pathAfterPrefix "/"%char 3 in
    match splitParams with
    | [userID; apnsID; unparsedPath] => (userID, apnsID, unparsedPath, None)
    | _ => ("", "", "", errors_New "APNS request has wrong number of params")
    end.

Definition parseTopic (unparsedPath : string) : string * error :=
  if negb (strings.HasPrefix unparsedPath (subscribePrefixPath ++ "/")) then
    ("", errors_New "APNS request third param is not subscribe")
  else
    (strings.TrimPrefix unparsedPath subscribePrefixPath, None).

(** Whether the byte [c] occurs in [s]. *)
Fixpoint has_byte (c : Ascii.ascii) (s : string) : bool :=
  match s with
  | EmptyString => false
  | String c' rest => Ascii.eqb c' c || has_byte c rest
  end.

End apns.

(** ** The codec *)

Module CodecFacts.

Import Codec.

Lemma Z_of_byte_of_Z (z : Z) : Z_of_byte (byte_of_Z z) = z mod 256.
Proof.
  unfold Z_of_byte, byte_of_Z.
  assert (Hr : 0 <= z mod 256 < 256) by (apply Z.mod_pos_bound; lia).
  pose proof (Byte.to_of_N_option_map (Z.to_N (z mod 256))) as Hm.
  destruct (Byte.of_N (Z.to_N (z mod 256))) as [b|] eqn:Hb; simpl in Hm.
  - apply Byte.to_of_N in Hb. rewrite Hb. apply Z2N.id. lia.
  - destruct (N.leb_spec (Z.to_N (z mod 256)) 255) as [_|Hgt];
      [discriminate | lia].
Qed.

Lemma get_uint_snoc (bs : list byte) (b : byte) :
  get_uint (bs ++ [b]) = get_uint bs * 256 + Z_of_byte b.
Proof. unfold get_uint. rewrite fold_left_app. reflexivity. Qed.

Lemma length_put_uint (n : nat) : forall z, List.length (put_uint n z) = n.
Proof.
  induction n as [|n IH]; intro z; simpl; [reflexivity|].
  rewrite length_app, IH. simpl. lia.
Qed.

Lemma get_put_uint (n : nat) :
  forall z, 0 <= z < 256 ^ Z.of_nat n -> get_uint (put_uint n z) = z.
Proof.
  induction n as [|n IH]; intros z Hz.
  - change (256 ^ Z.of_nat 0) with 1 in Hz.
    change (get_uint (put_uint 0 z)) with 0. lia.
  - cbn [put_uint]. rewrite get_uint_snoc, Z_of_byte_of_Z, IH.
    + pose proof (Z.div_mod z 256). lia.
    + rewrite Nat2Z.inj_succ, Z.pow_succ_r in Hz by lia.
      split; [apply Z.div_pos; lia|].
      apply Z.div_lt_upper_bound; lia.
Qed.

Lemma take_app (n : nat) (a rest : list byte) :
  List.length a = n -> take n (a ++ rest) = Some (a, rest).
Proof.
  intros <-. unfold take. rewrite length_app.
  destruct (Nat.ltb_spec (List.length a + List.length rest) (List.length a));
    [lia|].
  rewrite firstn_app, Nat.sub_diag, firstn_all, firstn_O, app_nil_r.
  rewrite skipn_app, Nat.sub_diag, skipn_all. reflexivity.
Qed.

Lemma take_put_uint (n : nat) (z : Z) (rest : list byte) :
  take n (put_uint n z ++ rest) = Some (put_uint n z, rest).
Proof. apply take_app, length_put_uint. Qed.

Lemma kind_of_byte_of_kind (t : messageType) :
  kind_of_byte (byte_of_kind t) = Some t.
Proof. destruct t; reflexivity. Qed.

Lemma int_wrap_mod (z : Z) :
  - 2 ^ 63 <= z < 2 ^ 63 -> int_wrap (z mod 2 ^ 64) = z.
Proof.
  intro Hz. unfold int_wrap.
  rewrite Zplus_mod_idemp_l.
  rewrite Z.mod_small; lia.
Qed.

(** C7.  Decoding the bytes that [encode] produces for an envelope a Go
    program can build gives the envelope back. *)
Theorem decode_encode (e : message) :
  constructible e ->
  exists b, encode e = inl b /\ decode b = inl e.
Proof.
  intros [Hid Hlen]. eexists. split; [reflexivity|].
  unfold decode. rewrite take_put_uint. cbn [app].
  rewrite take_put_uint.
  rewrite !get_put_uint.
  - rewrite Z.eqb_refl, kind_of_byte_of_kind, int_wrap_mod by exact Hid.
    destruct e; reflexivity.
  - change (256 ^ Z.of_nat 8) with (2 ^ 64).
    apply Z.mod_pos_bound. reflexivity.
  - change (256 ^ Z.of_nat 8) with (2 ^ 64). lia.
Qed.

(** The codec rejects the empty input and every proper prefix of an
    encoding, as the spec asks of [decode]. *)
Lemma decode_empty : decode [] = inr "unexpected end of cluster message".
Proof. reflexivity. Qed.

Lemma take_short (n : nat) (bs : list byte) :
  (List.length bs < n)%nat -> take n bs = None.
Proof.
  intro Hlt. unfold take.
  destruct (Nat.ltb_spec (List.length bs) n); [reflexivity|lia].
Qed.

Lemma firstn_past (n : nat) (a rest : list byte) :
  (List.length a <= n)%nat ->
  firstn n (a ++ rest) = a ++ firstn (n - List.length a) rest.
Proof.
  intro Hle. rewrite firstn_app, firstn_all2 by exact Hle. reflexivity.
Qed.

Lemma decode_truncated (e : message) (b : list byte) (n : nat) :
  constructible e ->
  encode e = inl b ->
  (n < List.length b)%nat ->
  exists err, decode (firstn n b) = inr err.
Proof.
  intros [_ Hlen] He Hn. unfold encode in He.
  apply (f_equal (fun r => match r with inl x => x | inr _ => [] end)) in He.
  cbv beta iota in He. subst b.
  set (id := put_uint 8 (NodeID e mod 2 ^ 64)) in *.
  set (len := put_uint 8 (Z.of_nat (List.length (Body e)))) in *.
  assert (Hid : List.length id = 8%nat) by apply length_put_uint.
  assert (Hl : List.length len = 8%nat) by apply length_put_uint.
  rewrite !length_app, Hid, Hl in Hn. cbn [List.length] in Hn.
  unfold decode.
  destruct (Nat.ltb_spec n 8) as [Hn8|Hn8].
  { rewrite take_short; [eexists; reflexivity|].
    rewrite length_firstn, !length_app, Hid. lia. }
  rewrite firstn_past by lia.
  rewrite (take_app 8 id _ Hid), Hid.
  destruct (n - 8)%nat as [|m] eqn:Hm; [eexists; reflexivity|].
  cbn [app firstn].
  destruct (Nat.ltb_spec m 8) as [Hm8|Hm8].
  { rewrite take_short; [eexists; reflexivity|].
    rewrite length_firstn, length_app, Hl. lia. }
  rewrite firstn_past by lia.
  rewrite (take_app 8 len _ Hl), Hl.
  unfold len. rewrite get_put_uint.
  - rewrite length_firstn.
    destruct (Z.eqb_spec (Z.of_nat (List.length (Body e)))
                (Z.of_nat (Nat.min (m - 8) (List.length (Body e)))));
      [lia|eexists; reflexivity].
  - change (256 ^ Z.of_nat 8) with (2 ^ 64). lia.
Qed.

Lemma decode_encode_witness :
  constructible Example.hello /\
  exists b, encode Example.hello = inl b /\ decode b = inl Example.hello.
Proof.
  assert (Hc : constructible Example.hello)
    by (repeat split; vm_compute; congruence).
  split; [exact Hc | exact (decode_encode Example.hello Hc)].
Defined.

End CodecFacts.

(** ** The coordinator *)

Section Properties.

Context {P : Type} {provider_ops : memberlist.Memberlist P}.
Context {Message Handler : Type}
        {handler_ops : MessageHandlerInterface Message Handler}.

Variable ParseMessage : list byte -> Message + string.
Variable Bytes : option Message -> outcome (list byte).
Variable encode : message -> list byte + string.
Variable decode : list byte -> message + string.

Abbreviation world := (World P Message Handler).
Abbreviation events := (list (event Message Handler)).

Lemma bind_returned {S A B} (m : M S A) (k : A -> M S B) (s : S) (a : A)
    (s' : S) :
  m s = (Returned a, s') -> bind m k s = k a s'.
Proof. intro Hm. unfold bind. rewrite Hm. reflexivity. Qed.

(** *** Reading a trace *)

Lemma join_attempts_app (t u : events) :
  join_attempts (t ++ u) = join_attempts t ++ join_attempts u.
Proof.
  induction t as [|e t IH]; [reflexivity|].
  destruct e; simpl; rewrite IH; reflexivity.
Qed.

Lemma send_attempts_app (t u : events) :
  send_attempts (t ++ u) = send_attempts t ++ send_attempts u.
Proof.
  induction t as [|e t IH]; [reflexivity|].
  destruct e; simpl; rewrite IH; reflexivity.
Qed.

Lemma handled_app (t u : events) :
  handled (t ++ u) = handled t ++ handled u.
Proof.
  induction t as [|e t IH]; [reflexivity|].
  destruct e; simpl; rewrite IH; reflexivity.
Qed.

Ltac run_go :=
  unfold bind, ret, panic, logger_Debug, logger_Error, logger_Panic, emit,
    get_cluster, put_cluster, get_provider, put_provider; cbn.

Ltac trace_facts :=
  cbn;
  repeat rewrite ?join_attempts_app, ?send_attempts_app, ?handled_app,
    <- ?app_assoc, ?app_nil_r;
  cbn; rewrite ?app_nil_r.

(** *** Start *)

(** C3.  Without a handler [Start] returns the error about the missing
    handler; the provider is not asked to join, and the cluster, the
    provider and the started goroutines are left as they were. *)
Theorem Start_missing_handler (w : world) :
  MessageHandler (receiver w) = None ->
  exists w',
    Start w =
      (Returned
         (errors_New "There should be a valid MessageHandler already set-up"),
       w')
    /\ join_attempts (trace w') = join_attempts (trace w)
    /\ receiver w' = receiver w
    /\ provider w' = provider w
    /\ spawned w' = spawned w
    /\ trace w' =
         trace w ++
           [Log DebugLevel "Starting Cluster";
            Log ErrorLevel
              "There should be a valid MessageHandler already set-up"].
Proof.
  intro Hnil. unfold Start. run_go. rewrite Hnil. run_go.
  eexists. split; [reflexivity|].
  repeat split; trace_facts; reflexivity.
Qed.

(** C4.  When the provider answers the join with [num] contacted peers and
    the error [err]: with a handler set, no error and no peer, [Start]
    returns an error after the one join attempt; and [Start] returns [nil]
    exactly when a handler is set, [err] is [nil] and at least one peer was
    contacted. *)
Theorem Start_join (w : world) (num : Z) (err : error) (p' : P) :
  memberlist.Join (provider w) (remotesAsStrings (receiver w))
    = (num, err, p') ->
  0 <= num ->
  (MessageHandler (receiver w) <> None -> err = None -> num = 0 ->
   exists w',
     Start w =
       (Returned
          (errors_New
             "No remote hosts were successfuly contacted when this node wanted to join the cluster"),
        w')
     /\ join_attempts (trace w') =
          join_attempts (trace w) ++ [remotesAsStrings (receiver w)])
  /\ ((exists w', Start w = (Returned None, w')) <->
      MessageHandler (receiver w) <> None /\ err = None /\ 1 <= num).
Proof.
  intros Hjoin Hnum. split.
  - intros Hh -> ->. unfold Start. run_go.
    destruct (MessageHandler (receiver w)) as [h|]; [|congruence].
    unfold memberlist_Join. run_go. rewrite Hjoin. run_go.
    eexists. split; [reflexivity|]. trace_facts. reflexivity.
  - unfold Start. run_go.
    destruct (MessageHandler (receiver w)) as [h|].
    + unfold memberlist_Join. run_go. rewrite Hjoin. run_go.
      destruct err as [e|]; run_go.
      * split; [intros [w' Hw']; discriminate|].
        intros (_ & He & _). discriminate.
      * destruct (Z.eqb_spec num 0) as [->|Hnz]; run_go.
        -- split; [intros [w' Hw']; discriminate|]. lia.
        -- split; [intros _; repeat split; [congruence|lia]|].
           intros _. eexists. reflexivity.
    + run_go. split; [intros [w' Hw']; discriminate|].
      intros (Hh & _). congruence.
Qed.

(** *** Check *)

(** C5.  [Check] returns [nil] when the provider's health score is at most
    the configured threshold, the threshold included, and the error about
    the health score when it is above; either way it returns, and the
    cluster, the provider and the started goroutines are left as they
    were. *)
Theorem Check_threshold (w : world) :
  exists r w',
    Check w = (Returned r, w')
    /\ (r = None <->
        memberlist.GetHealthScore (provider w)
          <= Config.HealthScoreThreshold (Config (receiver w)))
    /\ (r <> None -> r = errors_New "Cluster Health Score is not perfect")
    /\ receiver w' = receiver w
    /\ provider w' = provider w
    /\ spawned w' = spawned w.
Proof.
  unfold Check, memberlist_GetHealthScore. run_go.
  destruct (Z.gtb_spec (memberlist.GetHealthScore (provider w))
              (Config.HealthScoreThreshold (Config (receiver w))))
    as [Hgt|Hle]; run_go.
  - do 2 eexists. split; [reflexivity|]. cbn.
    repeat split; try reflexivity; try discriminate. lia.
  - do 2 eexists. split; [reflexivity|]. cbn.
    repeat split; try reflexivity; try congruence.
Qed.

(** *** NotifyMsg *)

(** C6.  On bytes that [decode] rejects, [NotifyMsg] returns after two log
    entries: the handler is not called, and the cluster, the provider and
    the started goroutines are left as they were. *)
Theorem NotifyMsg_decode_error (w : world) (msg : list byte) (err : string) :
  decode msg = inr err ->
  exists w',
    NotifyMsg ParseMessage decode msg w = (Returned tt, w')
    /\ handled (trace w') = handled (trace w)
    /\ receiver w' = receiver w
    /\ provider w' = provider w
    /\ spawned w' = spawned w
    /\ trace w' =
         trace w ++
           [Log DebugLevel "NotifyMsg";
            Log ErrorLevel "Decoding of cluster message failed"].
Proof.
  intro Hd. unfold NotifyMsg. rewrite Hd. run_go.
  eexists. split; [reflexivity|].
  repeat split; trace_facts; reflexivity.
Qed.

(** C10.  With no handler set, [NotifyMsg] returns on every input, also on
    the encoding of an application message: no handler is called, only log
    entries are added to the trace, and the cluster, the provider and the
    started goroutines are left as they were. *)
Theorem NotifyMsg_nil_handler (w : world) (msg : list byte) :
  MessageHandler (receiver w) = None ->
  exists w' entries,
    NotifyMsg ParseMessage decode msg w = (Returned tt, w')
    /\ trace w' = trace w ++ entries
    /\ (forall e, In e entries -> exists lvl text, e = Log lvl text)
    /\ handled (trace w') = handled (trace w)
    /\ receiver w' = receiver w
    /\ provider w' = provider w
    /\ spawned w' = spawned w.
Proof.
  intro Hnil. unfold NotifyMsg.
  destruct (decode msg) as [cmsg|err]; run_go; [rewrite Hnil|].
  - exists {| receiver := receiver w; provider := provider w;
              trace := (trace w ++ [Log DebugLevel "NotifyMsg"]) ++
                       [Log DebugLevel "NotifyMsg: Received cluster message"];
              spawned := spawned w |}.
    exists [Log DebugLevel "NotifyMsg";
            Log DebugLevel "NotifyMsg: Received cluster message"].
    split; [reflexivity|].
    repeat split; trace_facts; try reflexivity.
    intros e [<-|[<-|[]]]; do 2 eexists; reflexivity.
  - exists {| receiver := receiver w; provider := provider w;
              trace := (trace w ++ [Log DebugLevel "NotifyMsg"]) ++
                       [Log ErrorLevel "Decoding of cluster message failed"];
              spawned := spawned w |}.
    exists [Log DebugLevel "NotifyMsg";
            Log ErrorLevel "Decoding of cluster message failed"].
    split; [reflexivity|].
    repeat split; trace_facts; try reflexivity.
    intros e [<-|[<-|[]]]; do 2 eexists; reflexivity.
Qed.

(** C2.  On bytes that decode to an envelope [cmsg]: when its kind is
    [stringMessage] the handler is not called; when its kind is
    [gubleMessage], a handler [h] is set and the body parses to [m], the
    handler is called once, with [m]. *)
Theorem NotifyMsg_dispatch (w : world) (msg : list byte) (cmsg : message) :
  decode msg = inl cmsg ->
  (Type_ cmsg = stringMessage ->
   exists w',
     NotifyMsg ParseMessage decode msg w = (Returned tt, w')
     /\ handled (trace w') = handled (trace w))
  /\ (Type_ cmsg = gubleMessage ->
      forall h m,
        MessageHandler (receiver w) = Some h ->
        ParseMessage (Body cmsg) = inl m ->
        exists r w',
          NotifyMsg ParseMessage decode msg w = (r, w')
          /\ handled (trace w') = handled (trace w) ++ [(h, m)]).
Proof.
  intro Hd. split.
  - intro Hk. unfold NotifyMsg. rewrite Hd. run_go. rewrite Hk.
    destruct (MessageHandler (receiver w)) as [h|]; cbn;
      (eexists; split; [reflexivity|]; trace_facts; reflexivity).
  - intros Hk h m Hh Hm. unfold NotifyMsg. rewrite Hd. run_go.
    rewrite Hh, Hk. cbn. rewrite Hm.
    unfold MessageHandler_HandleMessage. run_go.
    destruct (HandleMessage h m) as [e|v];
      (do 2 eexists; split; [reflexivity|]; trace_facts; reflexivity).
Qed.

(** *** NotifyConflict *)

(** C8.  [NotifyConflict] panics for every pair of nodes and in every
    state: it never returns.  When both nodes are given the panic is that
    of the logger, raised after the entry is logged at the panic level. *)
Theorem NotifyConflict_panics
  (w : world) (existing other : option memberlist.Node) :
  (exists v w', NotifyConflict existing other w = (Panicked v, w'))
  /\ (forall a b, existing = Some a -> other = Some b ->
      NotifyConflict existing other w =
        (Panicked "NotifyConflict",
         {| receiver := receiver w; provider := provider w;
            trace := trace w ++ [Log PanicLevel "NotifyConflict"];
            spawned := spawned w |})).
Proof.
  split.
  - destruct existing, other; do 2 eexists; reflexivity.
  - intros a b -> ->. reflexivity.
Qed.

(** *** Broadcast *)

Lemma fan_out_loop (cMessageBytes : list byte)
    (members : list memberlist.Node) :
  forall w : world,
    for_range members
      (fun node =>
         cluster <- get_cluster ;;
         if (name cluster =? memberlist.Name node)%string then ret tt
         else go (go_sendToNode node cMessageBytes)) w
    = (Returned tt,
       {| receiver := receiver w; provider := provider w;
          trace := trace w;
          spawned :=
            spawned w ++
              map (fun node => go_sendToNode node cMessageBytes)
                (filter
                   (fun node =>
                      negb (name (receiver w) =? memberlist.Name node)%string)
                   members) |}).
Proof.
  induction members as [|node members IH]; intro w.
  - cbn. rewrite app_nil_r. destruct w; reflexivity.
  - cbn [for_range filter]. run_go.
    destruct (name (receiver w) =? memberlist.Name node)%string; cbn.
    + rewrite IH. reflexivity.
    + unfold go. rewrite IH. cbn. rewrite <- app_assoc. reflexivity.
Qed.

Lemma broadcastClusterMessage_encoded
    (w : world) (cMessage : message) (cMessageBytes : list byte) :
  encode cMessage = inl cMessageBytes ->
  broadcastClusterMessage encode (Some cMessage) w
  = (Returned None,
     {| receiver := receiver w; provider := provider w;
        trace := trace w ++ [CallMembers];
        spawned :=
          spawned w ++
            map (fun node => go_sendToNode node cMessageBytes)
              (filter
                 (fun node =>
                    negb (name (receiver w) =? memberlist.Name node)%string)
                 (memberlist.Members (provider w))) |}).
Proof.
  intro He. unfold broadcastClusterMessage. rewrite He.
  rewrite (bind_returned _ _ w (memberlist.Members (provider w))
             {| receiver := receiver w; provider := provider w;
                trace := trace w ++ [CallMembers];
                spawned := spawned w |}) by reflexivity.
  rewrite (bind_returned _ _ _ _ _ (fan_out_loop _ _ _)).
  reflexivity.
Qed.

Lemma broadcastClusterMessage_not_encoded
    (w : world) (cMessage : message) (err : string) :
  encode cMessage = inr err ->
  broadcastClusterMessage encode (Some cMessage) w
  = (Returned (Some err),
     {| receiver := receiver w; provider := provider w;
        trace :=
          trace w ++
            [Log ErrorLevel "Could not encode and broadcast cluster-message"];
        spawned := spawned w |}).
Proof.
  intro He. unfold broadcastClusterMessage. rewrite He. reflexivity.
Qed.

Lemma sendToNode_attempt (node : memberlist.Node) (msgBytes : list byte)
    (w : world) :
  exists w',
    sendToNode node msgBytes w = (Returned tt, w')
    /\ send_attempts (trace w') = send_attempts (trace w) ++ [(node, msgBytes)].
Proof.
  unfold sendToNode, memberlist_SendToTCP. run_go.
  destruct (memberlist.SendToTCP (provider w) node msgBytes) as [[e|] p'];
    run_go; eexists; (split; [reflexivity|]); trace_facts; reflexivity.
Qed.

Lemma run_in_order (order : list (goroutine)) :
  forall w : world,
  exists w',
    for_range order run w = (Returned tt, w')
    /\ send_attempts (trace w')
       = send_attempts (trace w) ++ map attempt_of order.
Proof.
  induction order as [|g order IH]; intro w.
  - exists w. cbn. rewrite app_nil_r. split; reflexivity.
  - destruct g as [node msgBytes].
    destruct (sendToNode_attempt node msgBytes w) as (w1 & Hrun & Hsent).
    destruct (IH w1) as (w2 & Hrest & Hsent2).
    exists w2. cbn [for_range run]. unfold bind at 1. rewrite Hrun.
    split; [exact Hrest|].
    rewrite Hsent2, Hsent, <- app_assoc. reflexivity.
Qed.

Lemma count_occ_filter_kept {A} (dec : forall x y : A, {x = y} + {x <> y})
    (f : A -> bool) (l : list A) (x : A) :
  f x = true -> count_occ dec (filter f l) x = count_occ dec l x.
Proof.
  intro Hx. induction l as [|y l IH]; [reflexivity|].
  cbn [filter]. destruct (dec y x) as [->|Hne].
  - rewrite Hx. cbn. destruct (dec x x); [|congruence]. now rewrite IH.
  - destruct (f y); cbn; destruct (dec y x); try congruence; exact IH.
Qed.

Lemma broadcastClusterMessage_fans_out
    (w w0 : world) (cMessage : message) (cMessageBytes : list byte) :
  name (receiver w) = Sprintf_d (Config.ID (Config (receiver w))) ->
  receiver w0 = receiver w -> provider w0 = provider w ->
  spawned w0 = spawned w ->
  send_attempts (trace w0) = send_attempts (trace w) ->
  encode cMessage = inl cMessageBytes ->
  fans_out w cMessageBytes
    (broadcastClusterMessage encode (Some cMessage) w0).
Proof.
  intros Hname Hr Hp Hs Ht He.
  rewrite (broadcastClusterMessage_encoded _ _ _ He).
  rewrite Hr, Hp, Hs, Hname.
  set (self := Sprintf_d (Config.ID (Config (receiver w)))).
  set (members := memberlist.Members (provider w)).
  set (others :=
         filter (fun node => negb (self =? memberlist.Name node)%string)
           members).
  exists (map (fun node => go_sendToNode node cMessageBytes) others).
  cbn [fst snd spawned]. split; [reflexivity|]. split; [reflexivity|].
  intros order Hperm.
  match goal with
  | |- context [for_range order run ?w1] =>
      destruct (run_in_order order w1) as (w2 & Hrun & Hsent)
  end.
  exists w2, (map attempt_of order). split; [exact Hrun|].
  assert (Hsame :
            Permutation (map attempt_of order)
              (map (fun node => (node, cMessageBytes)) others)).
  { rewrite (Permutation_map attempt_of Hperm), map_map. reflexivity. }
  split; [|split].
  - rewrite Hsent. cbn [trace]. rewrite send_attempts_app, Ht.
    cbn. rewrite app_nil_r. reflexivity.
  - intros node b Hin.
    apply (Permutation_in _ Hsame) in Hin.
    apply in_map_iff in Hin. destruct Hin as (n & Heq & Hn).
    injection Heq as -> ->.
    apply filter_In in Hn. destruct Hn as [Hmem Hother].
    repeat split; [exact Hmem|].
    intro Hself. rewrite Hself, String.eqb_refl in Hother. discriminate.
  - intros node Hmem Hother.
    rewrite (proj1 (Permutation_count_occ attempt_eq_dec _ _) Hsame).
    rewrite <- (count_occ_map (fun n => (n, cMessageBytes))
                  memberlist.Node_eq_dec attempt_eq_dec)
      by (intros x y Hxy; congruence).
    apply count_occ_filter_kept.
    destruct (String.eqb_spec self (memberlist.Name node)) as [Hself|];
      [|reflexivity].
    exfalso. apply Hother. symmetry. exact Hself.
Qed.

(** C1.  In a cluster named after its identifier, a call of
    [BroadcastString] or [BroadcastMessage] whose envelope encodes to
    [cMessageBytes] starts goroutines that attempt no send to a member
    named like the cluster, one send of [cMessageBytes] per listing of
    every other member, and no other send. *)
Theorem Broadcast_fans_out (w : world) :
  name (receiver w) = Sprintf_d (Config.ID (Config (receiver w))) ->
  (forall s cMessageBytes,
      encode {| NodeID := Config.ID (Config (receiver w));
                Type_ := stringMessage;
                Body := list_byte_of_string s |} = inl cMessageBytes ->
      fans_out w cMessageBytes (BroadcastString encode (Some s) w))
  /\ (forall pMessage body cMessageBytes,
        Bytes pMessage = Returned body ->
        encode {| NodeID := Config.ID (Config (receiver w));
                  Type_ := gubleMessage;
                  Body := body |} = inl cMessageBytes ->
        fans_out w cMessageBytes
          (BroadcastMessage Bytes encode pMessage w)).
Proof.
  intro Hname. split.
  - intros s cMessageBytes He. unfold BroadcastString. run_go.
    apply broadcastClusterMessage_fans_out;
      trace_facts; try reflexivity; assumption.
  - intros pMessage body cMessageBytes Hb He.
    unfold BroadcastMessage. run_go. rewrite Hb.
    apply broadcastClusterMessage_fans_out;
      trace_facts; try reflexivity; assumption.
Qed.

(** C9.  [BroadcastString] on a string and [BroadcastMessage] on a
    message whose [Bytes] are [body] pass to [broadcastClusterMessage], and
    through it to the codec, the envelope whose [NodeID] is the [ID] of the
    cluster's [Config], whose kind is [stringMessage] for the former and
    [gubleMessage] for the latter, and whose body is the bytes of the
    input; [BroadcastString] on a nil pointer panics before any envelope
    is built. *)
Theorem Broadcast_envelope (w : world) :
  (forall s,
      let cMessage := {| NodeID := Config.ID (Config (receiver w));
                         Type_ := stringMessage;
                         Body := list_byte_of_string s |} in
      BroadcastString encode (Some s) w
      = broadcastClusterMessage encode (Some cMessage)
          (snd (logger_Debug "BroadcastString" w))
      /\ carries encode w cMessage (BroadcastString encode (Some s) w))
  /\ (forall pMessage body,
        Bytes pMessage = Returned body ->
        let cMessage := {| NodeID := Config.ID (Config (receiver w));
                           Type_ := gubleMessage;
                           Body := body |} in
        BroadcastMessage Bytes encode pMessage w
        = broadcastClusterMessage encode (Some cMessage)
            (snd (logger_Debug "BroadcastMessage" w))
        /\ carries encode w cMessage
             (BroadcastMessage Bytes encode pMessage w))
  /\ (exists v w',
        BroadcastString encode None w = (Panicked v, w')
        /\ spawned w' = spawned w).
Proof.
  assert (Hcarries :
            forall (w0 : world) cMessage,
              spawned w0 = spawned w -> receiver w0 = receiver w ->
              carries encode w cMessage
                (broadcastClusterMessage encode (Some cMessage) w0)).
  { intros w0 cMessage Hs Hr. unfold carries.
    destruct (encode cMessage) as [cMessageBytes|err] eqn:He.
    - rewrite (broadcastClusterMessage_encoded _ _ _ He). cbn.
      split; [reflexivity|]. rewrite Hs. eexists. reflexivity.
    - rewrite (broadcastClusterMessage_not_encoded _ _ _ He). cbn.
      split; [reflexivity|exact Hs]. }
  split; [|split].
  - intros s cMessage.
    assert (Hcall :
              BroadcastString encode (Some s) w
              = broadcastClusterMessage encode (Some cMessage)
                  (snd (logger_Debug "BroadcastString" w)))
      by reflexivity.
    split; [exact Hcall|]. rewrite Hcall. apply Hcarries; reflexivity.
  - intros pMessage body Hb cMessage.
    assert (Hcall :
              BroadcastMessage Bytes encode pMessage w
              = broadcastClusterMessage encode (Some cMessage)
                  (snd (logger_Debug "BroadcastMessage" w))).
    { unfold BroadcastMessage. run_go. rewrite Hb. reflexivity. }
    split; [exact Hcall|]. rewrite Hcall. apply Hcarries; reflexivity.
  - do 2 eexists. split; reflexivity.
Qed.

(** *** New *)

(** The cluster [New] returns is named after its identifier, has no
    handler yet, and has started nothing. *)
Lemma New_names_the_cluster (config : Config.t) (w : world) :
  New config = inl w ->
  name (receiver w) = Sprintf_d (Config.ID (Config (receiver w)))
  /\ Config (receiver w) = config
  /\ MessageHandler (receiver w) = None
  /\ trace w = [] /\ spawned w = [].
Proof.
  unfold New.
  destruct (memberlist.Create _) as [p|err]; [|discriminate].
  intros [= <-]. repeat split.
Qed.

End Properties.

(** ** The properties at work on the cluster of two nodes *)

Lemma Start_missing_handler_witness :
  MessageHandler (receiver (Example.world1 None (1, None))) = None
  /\ exists w',
       Start (Example.world1 None (1, None))
       = (Returned
            (errors_New "There should be a valid MessageHandler already set-up"),
          w')
       /\ join_attempts (trace w') = [].
Proof.
  split; [reflexivity|].
  destruct (Start_missing_handler (Example.world1 None (1, None)) eq_refl)
    as (w' & Hstart & Hjoin & _).
  exists w'. split; [exact Hstart | exact Hjoin].
Defined.

Lemma Start_join_witness :
  let w := Example.world1 (Some Example.Accepting) (0, None) in
  memberlist.Join (provider w) (remotesAsStrings (receiver w))
    = (0, None, provider w)
  /\ 0 <= 0
  /\ exists w',
       Start w
       = (Returned
            (errors_New
               "No remote hosts were successfuly contacted when this node wanted to join the cluster"),
          w')
       /\ join_attempts (trace w') = [["0.0.0.0:10000"]].
Proof.
  intro w. split; [reflexivity|]. split; [lia|].
  destruct (Start_join (provider_ops := Example.scripted_ops)
              w 0 None (provider w) eq_refl (Z.le_refl 0))
    as [Hzero _].
  destruct (Hzero ltac:(discriminate) eq_refl eq_refl) as (w' & Hstart & Hjoin).
  exists w'. split; [exact Hstart | exact Hjoin].
Defined.

Lemma NotifyMsg_decode_error_witness :
  let w := Example.world1 (Some Example.Accepting) (1, None) in
  Codec.decode [] = inr "unexpected end of cluster message"
  /\ exists w',
       NotifyMsg Example.ParseMessage Codec.decode [] w = (Returned tt, w')
       /\ handled (trace w') = []
       /\ receiver w' = receiver w.
Proof.
  intro w. split; [reflexivity|].
  destruct (NotifyMsg_decode_error Example.ParseMessage Codec.decode w []
              "unexpected end of cluster message" eq_refl)
    as (w' & Hrun & Hhandled & Hreceiver & _).
  exists w'. repeat split; assumption.
Defined.

Lemma NotifyMsg_nil_handler_witness :
  let w := Example.world1 None (1, None) in
  MessageHandler (receiver w) = None
  /\ exists w',
       NotifyMsg Example.ParseMessage Codec.decode
         (Example.bytes_of Example.publish) w
       = (Returned tt, w')
       /\ handled (trace w') = [].
Proof.
  intro w. split; [reflexivity|].
  destruct (NotifyMsg_nil_handler Example.ParseMessage Codec.decode w
              (Example.bytes_of Example.publish) eq_refl)
    as (w' & entries & Hrun & _ & _ & Hhandled & _).
  exists w'. split; [exact Hrun | exact Hhandled].
Defined.

Lemma NotifyMsg_dispatch_witness :
  let w := Example.world1 (Some Example.Accepting) (1, None) in
  Codec.decode (Example.bytes_of Example.publish) = inl Example.publish
  /\ exists r w',
       NotifyMsg Example.ParseMessage Codec.decode
         (Example.bytes_of Example.publish) w
       = (r, w')
       /\ handled (trace w')
          = [(Example.Accepting, Body Example.publish)].
Proof.
  intro w.
  assert (Hdecode :
            Codec.decode (Example.bytes_of Example.publish)
            = inl Example.publish) by (vm_compute; reflexivity).
  split; [exact Hdecode|].
  destruct (NotifyMsg_dispatch Example.ParseMessage Codec.decode w
              (Example.bytes_of Example.publish) Example.publish Hdecode)
    as [_ Happ].
  exact (Happ eq_refl Example.Accepting (Body Example.publish)
           eq_refl eq_refl).
Defined.

Lemma Broadcast_fans_out_witness :
  let w := Example.world1 (Some Example.Accepting) (1, None) in
  name (receiver w) = Sprintf_d (Config.ID (Config (receiver w)))
  /\ fans_out w (Example.bytes_of Example.hello)
       (BroadcastString Codec.encode (Some "hello") w).
Proof.
  intro w. split; [reflexivity|].
  destruct (Broadcast_fans_out Example.Bytes Codec.encode w eq_refl)
    as [Hstring _].
  exact (Hstring "hello" (Example.bytes_of Example.hello) eq_refl).
Defined.

Lemma Broadcast_envelope_witness :
  let w := Example.world1 (Some Example.Accepting) (1, None) in
  Example.Bytes (Some (Body Example.publish)) = Returned (Body Example.publish)
  /\ carries Codec.encode w
       {| NodeID := 1; Type_ := gubleMessage; Body := Body Example.publish |}
       (BroadcastMessage Example.Bytes Codec.encode
          (Some (Body Example.publish)) w).
Proof.
  intro w. split; [reflexivity|].
  destruct (Broadcast_envelope Example.Bytes Codec.encode w)
    as (_ & Hmessage & _).
  destruct (Hmessage (Some (Body Example.publish)) (Body Example.publish)
              eq_refl)
    as [_ Hcarries].
  exact Hcarries.
Defined.

(** Node 1 broadcasting to the members [node1; node2] starts one goroutine,
    for node 2. *)
Example BroadcastString_two_nodes :
  spawned
    (snd (BroadcastString Codec.encode (Some "hello")
            (Example.world1 (Some Example.Accepting) (1, None))))
  = [go_sendToNode Example.node2 (Example.bytes_of Example.hello)].
Proof. reflexivity. Qed.

(** Running that goroutine calls [SendToTCP] once. *)
Example BroadcastString_two_nodes_sent :
  let w := snd (BroadcastString Codec.encode (Some "hello")
                  (Example.world1 (Some Example.Accepting) (1, None))) in
  send_attempts (trace (snd (for_range (spawned w) run w)))
  = [(Example.node2, Example.bytes_of Example.hello)].
Proof. reflexivity. Qed.

(** A health score equal to the threshold passes the check. *)
Example Check_at_threshold :
  fst (Check (Example.world1 (Some Example.Accepting) (1, None)))
  = Returned None.
Proof. reflexivity. Qed.

(** A join that reaches one peer starts the cluster. *)
Example Start_one_peer :
  fst (Start (Example.world1 (Some Example.Accepting) (1, None)))
  = Returned None.
Proof. reflexivity. Qed.

(** The name [New] derives for node 1. *)
Example New_node1 :
  match New Example.config1 with
  | inl w =>
      name (receiver (w : World Example.scripted (list byte) Example.accepting))
  | inr _ => ""
  end = "1".
Proof. reflexivity. Qed.

(** ** Further properties of the coordinator *)

Section Conduct.

Context {P : Type} {provider_ops : memberlist.Memberlist P}.
Context {Message Handler : Type}
        {handler_ops : MessageHandlerInterface Message Handler}.

Variable ParseMessage : list byte -> Message + string.
Variable Bytes : option Message -> outcome (list byte).
Variable encode : message -> list byte + string.
Variable decode : list byte -> message + string.

Abbreviation world := (World P Message Handler).
Abbreviation events := (list (event Message Handler)).
Abbreviation calls := (list (call Message Handler)).

Ltac step_go :=
  unfold bind, ret, panic, logger_Debug, logger_Error, logger_Panic, emit,
    get_cluster, put_cluster, get_provider, put_provider; cbn.

Lemma errors_logged_app (t u : events) :
  errors_logged (t ++ u) = errors_logged t ++ errors_logged u.
Proof.
  induction t as [|e t IH]; [reflexivity|].
  destruct e as [[] msg| | | | | |]; simpl; rewrite IH; reflexivity.
Qed.

Lemma members_calls_app (t u : events) :
  members_calls (t ++ u) = (members_calls t + members_calls u)%nat.
Proof.
  induction t as [|e t IH]; [reflexivity|].
  destruct e; simpl; rewrite IH; reflexivity.
Qed.

Ltac read_trace :=
  cbn;
  repeat rewrite ?join_attempts_app, ?send_attempts_app, ?handled_app,
    ?errors_logged_app, ?members_calls_app, <- ?app_assoc, ?app_nil_r;
  cbn; rewrite ?app_nil_r, ?Nat.add_0_r.

(** *** remotesAsStrings *)

Lemma fold_left_snoc_map {A B} (f : A -> B) (l : list A) :
  forall init,
    fold_left (fun acc x => acc ++ [f x]) l init = init ++ map f l.
Proof.
  induction l as [|x l IH]; intro init; cbn.
  - rewrite app_nil_r. reflexivity.
  - rewrite IH, <- app_assoc. reflexivity.
Qed.

(** X1.  [remotesAsStrings] gives one address per remote of the
    configuration, in the same order, each the IP, a colon and the port in
    decimal; without remotes it gives no address. *)
Theorem remotesAsStrings_each (c : Cluster Handler) :
  List.length (remotesAsStrings c)
    = List.length (Config.Remotes (Config c))
  /\ forall i remote,
       nth_error (Config.Remotes (Config c)) i = Some remote ->
       nth_error (remotesAsStrings c) i
       = Some (net.IP remote ++ ":" ++ Itoa (net.Port remote))%string.
Proof.
  unfold remotesAsStrings. rewrite fold_left_snoc_map. cbn [app].
  split; [apply length_map|].
  intros i remote Hi. rewrite nth_error_map, Hi. reflexivity.
Qed.

(** *** Start *)

(** X2.  With a handler set, [Start] asks the provider to join once, with
    the addresses of [remotesAsStrings], and leaves the provider as the
    join left it; when the join reports an error [Start] returns that very
    error, whatever the number of peers reported with it.  The cluster and
    the started goroutines are left as they were. *)
Theorem Start_with_handler (w : world) (h : Handler) (num : Z) (err : error)
    (p' : P) :
  MessageHandler (receiver w) = Some h ->
  memberlist.Join (provider w) (remotesAsStrings (receiver w))
    = (num, err, p') ->
  exists r w',
    Start w = (Returned r, w')
    /\ join_attempts (trace w')
       = join_attempts (trace w) ++ [remotesAsStrings (receiver w)]
    /\ provider w' = p'
    /\ receiver w' = receiver w
    /\ spawned w' = spawned w
    /\ (err <> None -> r = err).
Proof.
  intros Hh Hjoin. unfold Start. step_go. rewrite Hh.
  unfold memberlist_Join. step_go. rewrite Hjoin. step_go.
  destruct err as [e|]; step_go.
  - do 2 eexists. split; [reflexivity|]. read_trace. repeat split.
  - destruct (num =? 0); step_go;
      (do 2 eexists; split; [reflexivity|]; read_trace; repeat split;
       congruence).
Qed.

(** *** NotifyMsg *)

(** X3.  When the body of a decoded application message does not parse,
    [NotifyMsg] logs the failure and returns: the handler is not called, and
    the cluster, the provider and the started goroutines are left as they
    were. *)
Theorem NotifyMsg_parse_error (w : world) (msg : list byte) (cmsg : message)
    (h : Handler) (err : string) :
  decode msg = inl cmsg ->
  Type_ cmsg = gubleMessage ->
  MessageHandler (receiver w) = Some h ->
  ParseMessage (Body cmsg) = inr err ->
  exists w',
    NotifyMsg ParseMessage decode msg w = (Returned tt, w')
    /\ handled (trace w') = handled (trace w)
    /\ errors_logged (trace w')
       = errors_logged (trace w)
           ++ ["Parsing of guble-message contained in cluster-message failed"]
    /\ receiver w' = receiver w
    /\ provider w' = provider w
    /\ spawned w' = spawned w.
Proof.
  intros Hd Hk Hh Hp. unfold NotifyMsg. rewrite Hd. step_go.
  rewrite Hh, Hk. cbn. rewrite Hp. step_go.
  eexists. split; [reflexivity|]. read_trace. repeat split.
Qed.

(** X4.  On every input [NotifyMsg] leaves the cluster, the provider and the
    started goroutines as they were, calls the handler at most once, and
    returns, unless the handler it called panics; an error the handler
    returns is dropped. *)
Theorem NotifyMsg_contained (w : world) (msg : list byte) :
  exists r w' delivered,
    NotifyMsg ParseMessage decode msg w = (r, w')
    /\ receiver w' = receiver w
    /\ provider w' = provider w
    /\ spawned w' = spawned w
    /\ handled (trace w') = handled (trace w) ++ delivered
    /\ (List.length delivered <= 1)%nat
    /\ (r = Returned tt
        \/ exists h m v,
             delivered = [(h, m)] /\ HandleMessage h m = Panicked v
             /\ r = Panicked v).
Proof.
  unfold NotifyMsg.
  destruct (decode msg) as [cmsg|err]; step_go.
  - destruct (MessageHandler (receiver w)) as [h|]; cbn.
    + destruct (messageType_eqb (Type_ cmsg) gubleMessage); cbn.
      * destruct (ParseMessage (Body cmsg)) as [m|err]; step_go.
        -- unfold MessageHandler_HandleMessage. step_go.
           destruct (HandleMessage h m) as [e|v] eqn:Hcall.
           ++ exists (Returned tt). eexists. exists [(h, m)].
              split; [reflexivity|]. read_trace. repeat split; auto.
           ++ exists (Panicked v). eexists. exists [(h, m)].
              split; [reflexivity|]. read_trace. repeat split; auto.
              right. exists h, m, v. repeat split. exact Hcall.
        -- do 2 eexists. exists []. split; [reflexivity|]. read_trace.
           repeat split; auto.
      * do 2 eexists. exists []. split; [reflexivity|]. read_trace.
        repeat split; auto.
    + do 2 eexists. exists []. split; [reflexivity|]. read_trace.
      repeat split; auto.
  - do 2 eexists. exists []. split; [reflexivity|]. read_trace.
    repeat split; auto.
Qed.

(** *** sendToNode and the goroutines *)


Lemma sendToNode_effect (w : world) (node : memberlist.Node)
    (msgBytes : list byte) :
  exists w',
    sendToNode node msgBytes w = (Returned tt, w')
    /\ send_attempts (trace w') = send_attempts (trace w) ++ [(node, msgBytes)]
    /\ handled (trace w') = handled (trace w)
    /\ join_attempts (trace w') = join_attempts (trace w)
    /\ receiver w' = receiver w
    /\ spawned w' = spawned w.
Proof.
  unfold sendToNode, memberlist_SendToTCP. step_go.
  destruct (memberlist.SendToTCP (provider w) node msgBytes) as [[e|] p'];
    step_go; eexists; (split; [reflexivity|]); read_trace; repeat split.
Qed.


(** *** Broadcast *)

Lemma filter_length_bound {A} (f : A -> bool) (l : list A) :
  (List.length (filter f l) <= List.length l)%nat.
Proof.
  induction l as [|x l IH]; cbn; [lia|].
  destruct (f x); cbn; lia.
Qed.

Lemma broadcastClusterMessage_effect (cMessage : option message) (w : world) :
  exists r w' started,
    broadcastClusterMessage encode cMessage w = (Returned r, w')
    /\ receiver w' = receiver w
    /\ provider w' = provider w
    /\ spawned w' = spawned w ++ started
    /\ (List.length started
        <= List.length (memberlist.Members (provider w)))%nat
    /\ send_attempts (trace w') = send_attempts (trace w)
    /\ handled (trace w') = handled (trace w)
    /\ join_attempts (trace w') = join_attempts (trace w).
Proof.
  destruct cMessage as [cMessage|].
  - destruct (encode cMessage) as [cMessageBytes|err] eqn:He.
    + rewrite (broadcastClusterMessage_encoded _ _ _ _ He).
      do 3 eexists. split; [reflexivity|]. cbn [receiver provider spawned].
      do 3 (split; [reflexivity|]).
      split; [rewrite length_map; apply filter_length_bound|].
      read_trace. repeat split.
    + rewrite (broadcastClusterMessage_not_encoded _ _ _ _ He).
      do 2 eexists. exists []. split; [reflexivity|]. read_trace.
      repeat split. lia.
  - cbn. step_go. do 2 eexists. exists []. split; [reflexivity|].
    read_trace. repeat split. lia.
Qed.

Lemma BroadcastString_call (w : world) (s : string) :
  BroadcastString encode (Some s) w
  = broadcastClusterMessage encode
      (Some {| NodeID := Config.ID (Config (receiver w));
               Type_ := stringMessage;
               Body := list_byte_of_string s |})
      (snd (logger_Debug "BroadcastString" w)).
Proof. reflexivity. Qed.

Lemma BroadcastMessage_call (w : world) (pMessage : option Message)
    (body : list byte) :
  Bytes pMessage = Returned body ->
  BroadcastMessage Bytes encode pMessage w
  = broadcastClusterMessage encode
      (Some {| NodeID := Config.ID (Config (receiver w));
               Type_ := gubleMessage;
               Body := body |})
      (snd (logger_Debug "BroadcastMessage" w)).
Proof.
  intro Hb. unfold BroadcastMessage. step_go. rewrite Hb. reflexivity.
Qed.

(** X6.  [broadcastClusterMessage] returns [nil] exactly when it is given an
    envelope and the envelope encodes; otherwise it returns an error, that
    of the codec when the encoding failed, without asking the provider for
    its members and without starting a goroutine. *)
Theorem broadcastClusterMessage_refusals (cMessage : option message)
    (w : world) :
  exists r w',
    broadcastClusterMessage encode cMessage w = (Returned r, w')
    /\ (r = None <->
        exists m cMessageBytes,
          cMessage = Some m /\ encode m = inl cMessageBytes)
    /\ (forall m err,
          cMessage = Some m -> encode m = inr err -> r = Some err)
    /\ (r <> None ->
        members_calls (trace w') = members_calls (trace w)
        /\ spawned w' = spawned w
        /\ provider w' = provider w).
Proof.
  destruct cMessage as [m|].
  - destruct (encode m) as [cMessageBytes|err] eqn:He.
    + rewrite (broadcastClusterMessage_encoded _ _ _ _ He).
      do 2 eexists. split; [reflexivity|]. split; [|split].
      * split; [|reflexivity].
        intros _. exists m, cMessageBytes. split; [reflexivity|exact He].
      * intros m' err [= <-] He'. congruence.
      * intro Hr. congruence.
    + rewrite (broadcastClusterMessage_not_encoded _ _ _ _ He).
      do 2 eexists. split; [reflexivity|]. split; [|split].
      * split; [discriminate|].
        intros (m' & b & [= <-] & He'). congruence.
      * intros m' err' [= <-] He'. congruence.
      * intros _. read_trace. repeat split.
  - cbn. step_go. do 2 eexists. split; [reflexivity|]. split; [|split].
    + split; [discriminate|]. intros (m' & b & Hm & _). discriminate.
    + intros m' err' Hm. discriminate.
    + intros _. read_trace. repeat split.
Qed.

(** X7.  A call of [BroadcastString] or [BroadcastMessage], whatever its
    input and however it ends, makes no call of [SendToTCP] itself: it only
    starts goroutines, at most one per member the provider lists, and leaves
    the cluster and the provider as they were. *)
Theorem Broadcast_only_starts (w : world) :
  (forall sMessage,
      exists r w' started,
        BroadcastString encode sMessage w = (r, w')
        /\ send_attempts (trace w') = send_attempts (trace w)
        /\ spawned w' = spawned w ++ started
        /\ (List.length started
            <= List.length (memberlist.Members (provider w)))%nat
        /\ receiver w' = receiver w
        /\ provider w' = provider w)
  /\ (forall pMessage,
        exists r w' started,
          BroadcastMessage Bytes encode pMessage w = (r, w')
          /\ send_attempts (trace w') = send_attempts (trace w)
          /\ spawned w' = spawned w ++ started
          /\ (List.length started
              <= List.length (memberlist.Members (provider w)))%nat
          /\ receiver w' = receiver w
          /\ provider w' = provider w).
Proof.
  split.
  - intros [s|].
    + assert (Hcall :
                BroadcastString encode (Some s) w
                = broadcastClusterMessage encode
                    (Some {| NodeID := Config.ID (Config (receiver w));
                             Type_ := stringMessage;
                             Body := list_byte_of_string s |})
                    (snd (logger_Debug "BroadcastString" w)))
        by reflexivity.
      rewrite Hcall.
      destruct (broadcastClusterMessage_effect
                  (Some {| NodeID := Config.ID (Config (receiver w));
                           Type_ := stringMessage;
                           Body := list_byte_of_string s |})
                  (snd (logger_Debug "BroadcastString" w)))
        as (r & w' & started & Hrun & Hr & Hp & Hs & Hn & Hsent & _).
      rewrite Hrun. exists (Returned r), w', started.
      split; [reflexivity|]. rewrite Hsent, Hs, Hr, Hp. read_trace.
      repeat split. exact Hn.
    + do 2 eexists. exists []. split; [reflexivity|]. read_trace.
      repeat split. lia.
  - intro pMessage.
    destruct (Bytes pMessage) as [body|v] eqn:Hb.
    + assert (Hcall :
                BroadcastMessage Bytes encode pMessage w
                = broadcastClusterMessage encode
                    (Some {| NodeID := Config.ID (Config (receiver w));
                             Type_ := gubleMessage;
                             Body := body |})
                    (snd (logger_Debug "BroadcastMessage" w))).
      { unfold BroadcastMessage. step_go. rewrite Hb. reflexivity. }
      rewrite Hcall.
      destruct (broadcastClusterMessage_effect
                  (Some {| NodeID := Config.ID (Config (receiver w));
                           Type_ := gubleMessage;
                           Body := body |})
                  (snd (logger_Debug "BroadcastMessage" w)))
        as (r & w' & started & Hrun & Hr & Hp & Hs & Hn & Hsent & _).
      rewrite Hrun. exists (Returned r), w', started.
      split; [reflexivity|]. rewrite Hsent, Hs, Hr, Hp. read_trace.
      repeat split. exact Hn.
    + unfold BroadcastMessage. step_go. rewrite Hb.
      do 2 eexists. exists []. split; [reflexivity|]. read_trace.
      repeat split. lia.
Qed.

(** *** Names *)

Lemma to_int_normal (i : Z) :
  Z.to_int i <> Decimal.Pos Decimal.Nil
  /\ Z.to_int i <> Decimal.Neg Decimal.Nil.
Proof.
  rewrite <- (DecimalZ.of_to i), DecimalZ.to_of.
  destruct (Z.to_int i) as [u|u]; cbn.
  - split; [|discriminate].
    intros [= Hu]. exact (DecimalFacts.unorm_nonnil u Hu).
  - destruct (Decimal.nzhead u); split; discriminate.
Qed.

Lemma Sprintf_d_inj (i j : Z) : Sprintf_d i = Sprintf_d j -> i = j.
Proof.
  unfold Sprintf_d. intro Heq.
  destruct (to_int_normal i) as [Hi1 Hi2].
  destruct (to_int_normal j) as [Hj1 Hj2].
  pose proof (NilZero.isi (Z.to_int i) Hi1 Hi2) as Hi.
  pose proof (NilZero.isi (Z.to_int j) Hj1 Hj2) as Hj.
  rewrite Heq, Hj in Hi. injection Hi as Hi.
  apply DecimalZ.to_int_inj. symmetry. exact Hi.
Qed.

(** X8.  Nodes that [New] creates from configurations with different
    identifiers get different names. *)
Theorem New_distinct_names (config1 config2 : Config.t) (w1 w2 : world) :
  New config1 = inl w1 ->
  New config2 = inl w2 ->
  Config.ID config1 <> Config.ID config2 ->
  name (receiver w1) <> name (receiver w2).
Proof.
  unfold New.
  destruct (memberlist.Create _) as [p1|e1]; [|discriminate].
  destruct (memberlist.Create _) as [p2|e2]; [|discriminate].
  intros [= <-] [= <-] Hids Hnames. cbn in Hnames.
  apply Hids, Sprintf_d_inj, Hnames.
Qed.

(** X9.  In a cluster named after its identifier, a broadcast whose
    envelope encodes starts a goroutine for every listed member that is
    named after another identifier: only the node itself is left out. *)
Theorem Broadcast_reaches_other_ids (w : world) (node : memberlist.Node)
    (id : Z) :
  name (receiver w) = Sprintf_d (Config.ID (Config (receiver w))) ->
  In node (memberlist.Members (provider w)) ->
  memberlist.Name node = Sprintf_d id ->
  id <> Config.ID (Config (receiver w)) ->
  (forall s cMessageBytes,
      encode {| NodeID := Config.ID (Config (receiver w));
                Type_ := stringMessage;
                Body := list_byte_of_string s |} = inl cMessageBytes ->
      In (go_sendToNode node cMessageBytes)
        (spawned (snd (BroadcastString encode (Some s) w))))
  /\ (forall pMessage body cMessageBytes,
        Bytes pMessage = Returned body ->
        encode {| NodeID := Config.ID (Config (receiver w));
                  Type_ := gubleMessage;
                  Body := body |} = inl cMessageBytes ->
        In (go_sendToNode node cMessageBytes)
          (spawned (snd (BroadcastMessage Bytes encode pMessage w)))).
Proof.
  intros Hname Hin Hnode Hid.
  assert (Hkept :
            In node
              (filter
                 (fun n => negb (name (receiver w) =? memberlist.Name n)%string)
                 (memberlist.Members (provider w)))).
  { apply filter_In. split; [exact Hin|].
    destruct (String.eqb_spec (name (receiver w)) (memberlist.Name node))
      as [Heq|]; [|reflexivity].
    exfalso. apply Hid, Sprintf_d_inj. congruence. }
  split.
  - intros s cMessageBytes He.
    rewrite BroadcastString_call.
    rewrite (broadcastClusterMessage_encoded _ _ _ _ He). cbn.
    apply in_or_app. right. apply in_map_iff. exists node. split; auto.
  - intros pMessage body cMessageBytes Hb He.
    rewrite (BroadcastMessage_call _ _ _ Hb).
    rewrite (broadcastClusterMessage_encoded _ _ _ _ He). cbn.
    apply in_or_app. right. apply in_map_iff. exists node. split; auto.
Qed.

(** *** Sequences of calls *)

Abbreviation after := (after_call ParseMessage Bytes encode decode).
Abbreviation after_all := (after_calls ParseMessage Bytes encode decode).

Lemma after_all_cons (c : call Message Handler) (cs : calls) (w : world) :
  after_all (c :: cs) w = after_all cs (after c w).
Proof. reflexivity. Qed.

Lemma NotifyMsg_effect (w : world) (msg : list byte) :
  let w' := snd (NotifyMsg ParseMessage decode msg w) in
  receiver w' = receiver w
  /\ (List.length (handled (trace w'))
      <= List.length (handled (trace w)) + 1)%nat
  /\ join_attempts (trace w') = join_attempts (trace w)
  /\ send_attempts (trace w') = send_attempts (trace w).
Proof.
  unfold NotifyMsg.
  destruct (decode msg) as [cmsg|err]; step_go.
  - destruct (MessageHandler (receiver w)) as [h|]; cbn.
    + destruct (messageType_eqb (Type_ cmsg) gubleMessage); cbn.
      * destruct (ParseMessage (Body cmsg)) as [m|err]; step_go.
        -- unfold MessageHandler_HandleMessage. step_go.
           destruct (HandleMessage h m) as [e|v]; read_trace;
             repeat split; rewrite length_app; cbn; lia.
        -- read_trace. repeat split. lia.
      * read_trace. repeat split. lia.
    + read_trace. repeat split. lia.
  - read_trace. repeat split. lia.
Qed.

Lemma Broadcast_effect (w : world) :
  (forall sMessage,
      let w' := snd (BroadcastString encode sMessage w) in
      receiver w' = receiver w
      /\ handled (trace w') = handled (trace w)
      /\ join_attempts (trace w') = join_attempts (trace w)
      /\ send_attempts (trace w') = send_attempts (trace w))
  /\ (forall pMessage,
        let w' := snd (BroadcastMessage Bytes encode pMessage w) in
        receiver w' = receiver w
        /\ handled (trace w') = handled (trace w)
        /\ join_attempts (trace w') = join_attempts (trace w)
        /\ send_attempts (trace w') = send_attempts (trace w)).
Proof.
  split.
  - intros [s|].
    + rewrite BroadcastString_call.
      match goal with
      | |- context [broadcastClusterMessage encode ?cm ?w0] =>
          destruct (broadcastClusterMessage_effect cm w0)
            as (r & w1 & started & Hrun & Hr & _ & _ & _ & Hs & Hh & Hj)
      end.
      rewrite Hrun. cbn [snd]. rewrite Hr, Hs, Hh, Hj. read_trace.
      repeat split.
    + read_trace. repeat split.
  - intro pMessage. destruct (Bytes pMessage) as [body|v] eqn:Hb.
    + rewrite (BroadcastMessage_call _ _ _ Hb).
      match goal with
      | |- context [broadcastClusterMessage encode ?cm ?w0] =>
          destruct (broadcastClusterMessage_effect cm w0)
            as (r & w1 & started & Hrun & Hr & _ & _ & _ & Hs & Hh & Hj)
      end.
      rewrite Hrun. cbn [snd]. rewrite Hr, Hs, Hh, Hj. read_trace.
      repeat split.
    + unfold BroadcastMessage. step_go. rewrite Hb. read_trace.
      repeat split.
Qed.

Ltac settle :=
  read_trace; repeat split; rewrite ?length_app; cbn; try lia; auto.

(** What one call does to the fields of the cluster and to the calls
    recorded in the trace. *)
Lemma after_call_effect (c : call Message Handler) (w : world) :
  let w' := after c w in
  Config (receiver w') = Config (receiver w)
  /\ name (receiver w') = name (receiver w)
  /\ (broadcasts (receiver w') = broadcasts (receiver w)
      \/ broadcasts (receiver w') = [])
  /\ MessageHandler (receiver w')
     = match c with
       | call_SetMessageHandler h => h
       | _ => MessageHandler (receiver w)
       end
  /\ numJoins (receiver w')
     = (if is_NotifyJoin c then int_wrap (numJoins (receiver w) + 1)
        else numJoins (receiver w))
  /\ numLeaves (receiver w')
     = (if is_NotifyLeave c then int_wrap (numLeaves (receiver w) + 1)
        else numLeaves (receiver w))
  /\ numUpdates (receiver w')
     = (if is_NotifyUpdate c then int_wrap (numUpdates (receiver w) + 1)
        else numUpdates (receiver w))
  /\ (List.length (handled (trace w'))
      <= List.length (handled (trace w))
         + (if is_NotifyMsg c then 1 else 0))%nat
  /\ (List.length (join_attempts (trace w'))
      <= List.length (join_attempts (trace w))
         + (if is_Start c then 1 else 0))%nat
  /\ (MessageHandler (receiver w) = None ->
      join_attempts (trace w') = join_attempts (trace w))
  /\ List.length (send_attempts (trace w'))
     = (List.length (send_attempts (trace w))
        + (if is_sendToNode c then 1 else 0))%nat.
Proof.
  destruct c; cbn [after_call is_NotifyJoin is_NotifyLeave is_NotifyUpdate
                     is_NotifyMsg is_Start is_sendToNode].
  - settle.
  - unfold Start. step_go.
    destruct (MessageHandler (receiver w)) as [h|] eqn:Hh;
      [|settle; congruence].
    unfold memberlist_Join. step_go.
    destruct (memberlist.Join _ _) as [[num [e|]] p']; step_go;
      [settle; congruence|].
    destruct (num =? 0); step_go; settle; congruence.
  - unfold Stop, memberlist_Shutdown. step_go.
    destruct (memberlist.Shutdown _) as [e p']; step_go. settle.
  - unfold Check, memberlist_GetHealthScore. step_go.
    destruct (_ >? _); step_go; settle.
  - destruct (proj1 (Broadcast_effect w) sMessage) as (Hr & Hh & Hj & Hs).
    rewrite Hr, Hh, Hj, Hs. settle.
  - destruct (proj2 (Broadcast_effect w) pMessage) as (Hr & Hh & Hj & Hs).
    rewrite Hr, Hh, Hj, Hs. settle.
  - destruct (NotifyMsg_effect w msg) as (Hr & Hh & Hj & Hs).
    rewrite Hr, Hj, Hs. settle.
  - settle.
  - settle.
  - settle.
  - settle.
  - destruct node; settle.
  - destruct node; settle.
  - destruct node; settle.
  - destruct existing, other; settle.
  - destruct (sendToNode_effect w node msgBytes)
      as (w1 & Hrun & Hs & Hh & Hj & Hr & _).
    rewrite Hrun. cbn [snd]. rewrite Hr, Hs, Hh, Hj. settle.
Qed.

Lemma after_all_kept (cs : calls) :
  forall w : world,
    Config (receiver (after_all cs w)) = Config (receiver w)
    /\ name (receiver (after_all cs w)) = name (receiver w)
    /\ (broadcasts (receiver w) = [] ->
        broadcasts (receiver (after_all cs w)) = []).
Proof.
  induction cs as [|c cs IH]; intro w; [repeat split; auto|].
  rewrite after_all_cons.
  destruct (after_call_effect c w) as (Hc & Hn & Hb & _).
  destruct (IH (after c w)) as (Hc' & Hn' & Hb').
  rewrite Hc', Hn', Hc, Hn. repeat split.
  intro Hempty. apply Hb'. destruct Hb as [Hb|Hb]; congruence.
Qed.

(** X10.  Whatever is called on a cluster that [New] returned, in whatever
    order and whether the calls return or panic, its configuration stays
    the one given to [New] and its name stays the decimal form of the
    identifier in it. *)
Theorem calls_keep_the_name (config : Config.t) (w0 : world) (cs : calls) :
  New config = inl w0 ->
  Config (receiver (after_all cs w0)) = config
  /\ name (receiver (after_all cs w0))
     = Sprintf_d (Config.ID (Config (receiver (after_all cs w0)))).
Proof.
  intro Hnew.
  destruct (New_names_the_cluster config w0 Hnew) as (Hname & Hconfig & _).
  destruct (after_all_kept cs w0) as (Hc & Hn & _).
  rewrite Hc, Hn, Hconfig. split; [reflexivity|].
  rewrite Hname, Hconfig. reflexivity.
Qed.

(** X11.  Nothing in the file queues a broadcast: after any calls on a
    cluster that [New] returned, [GetBroadcasts] returns the empty list. *)
Theorem GetBroadcasts_always_empty (config : Config.t) (w0 : world)
    (cs : calls) (overhead limit : Z) :
  New config = inl w0 ->
  fst (GetBroadcasts overhead limit (after_all cs w0)) = Returned [].
Proof.
  intro Hnew. unfold New in Hnew.
  destruct (memberlist.Create _) as [p|e]; [|discriminate].
  injection Hnew as <-.
  destruct (after_all_kept cs
              {| receiver :=
                   {| Config := config; MessageHandler := None;
                      name := Sprintf_d (Config.ID config);
                      broadcasts := []; numJoins := 0; numLeaves := 0;
                      numUpdates := 0 |};
                 provider := p; trace := []; spawned := [] |})
    as (_ & _ & Hb).
  unfold GetBroadcasts. step_go. rewrite Hb; reflexivity.
Qed.

Lemma after_all_no_handler (cs : calls) :
  forall w : world,
    (forall h, ~ In (call_SetMessageHandler (Some h)) cs) ->
    MessageHandler (receiver w) = None ->
    MessageHandler (receiver (after_all cs w)) = None
    /\ join_attempts (trace (after_all cs w)) = join_attempts (trace w).
Proof.
  induction cs as [|c cs IH]; intros w Hset Hnone; [split; auto|].
  rewrite after_all_cons.
  destruct (after_call_effect c w)
    as (_ & _ & _ & Hh & _ & _ & _ & _ & _ & Hj & _).
  assert (Hnone' : MessageHandler (receiver (after c w)) = None).
  { rewrite Hh. destruct c as [[h|]| | | | | | | | | | | | | | |];
      try exact Hnone; [|reflexivity].
    exfalso. apply (Hset h). left. reflexivity. }
  destruct (IH (after c w)) as (Hh' & Hj'); [|exact Hnone'|].
  - intros h Hin. apply (Hset h). right. exact Hin.
  - split; [exact Hh'|]. rewrite Hj'. apply Hj, Hnone.
Qed.

(** X12.  As long as the application has set no handler on a cluster that
    [New] returned, no call, [Start] included, makes the provider join. *)
Theorem no_join_before_handler (config : Config.t) (w0 : world)
    (cs : calls) :
  New config = inl w0 ->
  (forall h, ~ In (call_SetMessageHandler (Some h)) cs) ->
  join_attempts (trace (after_all cs w0)) = [].
Proof.
  intros Hnew Hset.
  destruct (New_names_the_cluster config w0 Hnew)
    as (_ & _ & Hnone & Htrace & _).
  destruct (after_all_no_handler cs w0 Hset Hnone) as (_ & Hj).
  rewrite Hj, Htrace. reflexivity.
Qed.

Lemma int_wrap_add (a k : Z) : int_wrap (int_wrap a + k) = int_wrap (a + k).
Proof.
  unfold int_wrap. f_equal.
  replace ((a + 2 ^ 63) mod 2 ^ 64 - 2 ^ 63 + k + 2 ^ 63)
    with ((a + 2 ^ 63) mod 2 ^ 64 + k) by ring.
  rewrite Zplus_mod_idemp_l. f_equal. ring.
Qed.

Lemma int_wrap_idem (a : Z) : int_wrap (int_wrap a) = int_wrap a.
Proof.
  pose proof (int_wrap_add a 0) as Hadd.
  rewrite !Z.add_0_r in Hadd. exact Hadd.
Qed.

Lemma int_wrap_small (a : Z) : - 2 ^ 63 <= a < 2 ^ 63 -> int_wrap a = a.
Proof.
  intro Ha. unfold int_wrap. rewrite Z.mod_small; lia.
Qed.

Lemma counter_after_all (field : Cluster Handler -> Z)
    (counted : call Message Handler -> bool) :
  (forall c (w : world),
      field (receiver (after c w))
      = if counted c then int_wrap (field (receiver w) + 1)
        else field (receiver w)) ->
  forall (cs : calls) (w : world),
    int_wrap (field (receiver w)) = field (receiver w) ->
    field (receiver (after_all cs w))
    = int_wrap (field (receiver w)
                + Z.of_nat (List.length (filter counted cs))).
Proof.
  intros Hstep cs. induction cs as [|c cs IH]; intros w Hnormal.
  - cbn. rewrite Z.add_0_r. symmetry. exact Hnormal.
  - rewrite after_all_cons. cbn [filter]. specialize (Hstep c w).
    destruct (counted c).
    + rewrite IH by (rewrite Hstep; apply int_wrap_idem).
      rewrite Hstep, int_wrap_add. f_equal. cbn [List.length]. lia.
    + rewrite IH by (rewrite Hstep; exact Hnormal).
      rewrite Hstep. reflexivity.
Qed.

(** X13.  On a cluster that [New] returned, each of the three counters
    holds the number of notifications of its kind received so far, wrapped
    to 64 bits: notifications with a nil node count too, though they panic,
    and no other call touches a counter. *)
Theorem counters_count_notifications (config : Config.t) (w0 : world)
    (cs : calls) :
  New config = inl w0 ->
  let counted f := Z.of_nat (List.length (filter f cs)) in
  numJoins (receiver (after_all cs w0)) = int_wrap (counted is_NotifyJoin)
  /\ numLeaves (receiver (after_all cs w0))
     = int_wrap (counted is_NotifyLeave)
  /\ numUpdates (receiver (after_all cs w0))
     = int_wrap (counted is_NotifyUpdate)
  /\ (counted is_NotifyJoin < 2 ^ 63 ->
      numJoins (receiver (after_all cs w0)) = counted is_NotifyJoin).
Proof.
  intros Hnew counted. unfold New in Hnew.
  destruct (memberlist.Create _) as [p|e]; [|discriminate].
  injection Hnew as <-.
  set (w0 := {| receiver :=
                  {| Config := config; MessageHandler := None;
                     name := Sprintf_d (Config.ID config);
                     broadcasts := []; numJoins := 0; numLeaves := 0;
                     numUpdates := 0 |};
                provider := p; trace := []; spawned := [] |} : world).
  assert (Hj := counter_after_all numJoins is_NotifyJoin
                  (fun c w => proj1 (proj2 (proj2 (proj2 (proj2
                     (after_call_effect c w))))))
                  cs w0 eq_refl).
  assert (Hl := counter_after_all numLeaves is_NotifyLeave
                  (fun c w => proj1 (proj2 (proj2 (proj2 (proj2 (proj2
                     (after_call_effect c w)))))))
                  cs w0 eq_refl).
  assert (Hu := counter_after_all numUpdates is_NotifyUpdate
                  (fun c w => proj1 (proj2 (proj2 (proj2 (proj2 (proj2 (proj2
                     (after_call_effect c w))))))))
                  cs w0 eq_refl).
  cbn [w0 receiver numJoins numLeaves numUpdates] in Hj, Hl, Hu.
  rewrite Z.add_0_l in Hj, Hl, Hu.
  repeat split; try assumption.
  intro Hsmall. rewrite Hj. apply int_wrap_small. unfold counted in *. lia.
Qed.

(** X14.  Over any calls, the handler is called at most once per call of
    [NotifyMsg], and by nothing else. *)
Theorem handler_calls_bounded (cs : calls) :
  forall w : world,
    (List.length (handled (trace (after_all cs w)))
     <= List.length (handled (trace w))
        + List.length (filter is_NotifyMsg cs))%nat.
Proof.
  induction cs as [|c cs IH]; intro w; [cbn; lia|].
  rewrite after_all_cons. specialize (IH (after c w)).
  destruct (after_call_effect c w)
    as (_ & _ & _ & _ & _ & _ & _ & Hh & _).
  cbn [filter]. destruct (is_NotifyMsg c); cbn [List.length]; lia.
Qed.

(** X15.  Over any calls, the provider is asked to join at most once per
    call of [Start] and by nothing else, and [SendToTCP] is called exactly
    once per run of [sendToNode] and by nothing else. *)
Theorem provider_calls_accounted (cs : calls) :
  forall w : world,
    (List.length (join_attempts (trace (after_all cs w)))
     <= List.length (join_attempts (trace w))
        + List.length (filter is_Start cs))%nat
    /\ List.length (send_attempts (trace (after_all cs w)))
       = (List.length (send_attempts (trace w))
          + List.length (filter is_sendToNode cs))%nat.
Proof.
  induction cs as [|c cs IH]; intro w; [cbn; lia|].
  rewrite after_all_cons. specialize (IH (after c w)).
  destruct (after_call_effect c w)
    as (_ & _ & _ & _ & _ & _ & _ & _ & Hj & _ & Hs).
  cbn [filter].
  destruct (is_Start c), (is_sendToNode c); cbn [List.length]; lia.
Qed.

(** *** From a broadcast to the handler of a peer *)

(** X16.  When the codec decodes what it encoded and the body of a message
    parses back to the message, [BroadcastMessage] on one node followed by
    [NotifyMsg] on a peer, for the bytes of any goroutine the broadcast
    started, calls the handler of the peer once, with the message; the
    handler of the broadcasting node is not called. *)
Theorem broadcast_reaches_peer_handler (wA wB : world)
    (pMessage : option Message) (body cMessageBytes : list byte)
    (m : Message) (hB : Handler) :
  let cMessage := {| NodeID := Config.ID (Config (receiver wA));
                     Type_ := gubleMessage;
                     Body := body |} in
  Bytes pMessage = Returned body ->
  encode cMessage = inl cMessageBytes ->
  decode cMessageBytes = inl cMessage ->
  ParseMessage body = inl m ->
  MessageHandler (receiver wB) = Some hB ->
  exists wA' started,
    BroadcastMessage Bytes encode pMessage wA = (Returned None, wA')
    /\ spawned wA' = spawned wA ++ started
    /\ handled (trace wA') = handled (trace wA)
    /\ forall node msgBytes,
         In (go_sendToNode node msgBytes) started ->
         exists r wB',
           NotifyMsg ParseMessage decode msgBytes wB = (r, wB')
           /\ handled (trace wB') = handled (trace wB) ++ [(hB, m)].
Proof.
  intros cMessage Hb He Hd Hp Hh.
  rewrite (BroadcastMessage_call _ _ _ Hb).
  fold cMessage. rewrite (broadcastClusterMessage_encoded _ _ _ _ He).
  do 2 eexists. split; [reflexivity|]. cbn [spawned trace].
  split; [reflexivity|]. split; [read_trace; reflexivity|].
  intros node msgBytes Hin.
  apply in_map_iff in Hin. destruct Hin as (n & [= _ <-] & _).
  unfold NotifyMsg. rewrite Hd. step_go. rewrite Hh. cbn. rewrite Hp.
  unfold MessageHandler_HandleMessage. step_go.
  destruct (HandleMessage hB m) as [e|v];
    (do 2 eexists; split; [reflexivity|]; read_trace; reflexivity).
Qed.

End Conduct.

(** ** The further properties at work on the cluster of two nodes *)

Lemma Start_with_handler_witness :
  let w := Example.world1 (Some Example.Accepting) (3, Some "timeout") in
  MessageHandler (receiver w) = Some Example.Accepting
  /\ memberlist.Join (provider w) (remotesAsStrings (receiver w))
     = (3, Some "timeout", provider w)
  /\ exists w',
       Start w = (Returned (Some "timeout"), w')
       /\ join_attempts (trace w') = [["0.0.0.0:10000"]].
Proof.
  intro w. split; [reflexivity|]. split; [reflexivity|].
  destruct (Start_with_handler (provider_ops := Example.scripted_ops)
              w Example.Accepting 3 (Some "timeout") (provider w)
              eq_refl eq_refl)
    as (r & w' & Hstart & Hjoin & _ & _ & _ & Herr).
  exists w'. rewrite (Herr ltac:(discriminate)) in Hstart.
  split; [exact Hstart | exact Hjoin].
Defined.

Lemma NotifyMsg_parse_error_witness :
  let w := Example.world1 (Some Example.Accepting) (1, None) in
  let msg := Example.bytes_of Example.empty_publish in
  Codec.decode msg = inl Example.empty_publish
  /\ Type_ Example.empty_publish = gubleMessage
  /\ MessageHandler (receiver w) = Some Example.Accepting
  /\ Example.ParseMessage (Body Example.empty_publish) = inr "empty message"
  /\ exists w',
       NotifyMsg Example.ParseMessage Codec.decode msg w = (Returned tt, w')
       /\ handled (trace w') = [].
Proof.
  intros w msg.
  assert (Hdecode : Codec.decode msg = inl Example.empty_publish)
    by (vm_compute; reflexivity).
  repeat (split; [first [exact Hdecode | reflexivity]|]).
  destruct (NotifyMsg_parse_error Example.ParseMessage Codec.decode w msg
              Example.empty_publish Example.Accepting "empty message"
              Hdecode eq_refl eq_refl eq_refl)
    as (w' & Hrun & Hhandled & _).
  exists w'. split; [exact Hrun | exact Hhandled].
Defined.

Lemma New_distinct_names_witness :
  New Example.config1 = inl (Example.fresh Example.config1)
  /\ New Example.config2 = inl (Example.fresh Example.config2)
  /\ Config.ID Example.config1 <> Config.ID Example.config2
  /\ name (receiver (Example.fresh Example.config1))
     <> name (receiver (Example.fresh Example.config2)).
Proof.
  assert (Hids : Config.ID Example.config1 <> Config.ID Example.config2)
    by discriminate.
  repeat (split; [first [reflexivity | exact Hids]|]).
  exact (New_distinct_names Example.config1 Example.config2
           (Example.fresh Example.config1) (Example.fresh Example.config2)
           eq_refl eq_refl Hids).
Defined.

Lemma Broadcast_reaches_other_ids_witness :
  let w := Example.world1 (Some Example.Accepting) (1, None) in
  name (receiver w) = Sprintf_d (Config.ID (Config (receiver w)))
  /\ In Example.node2 (memberlist.Members (provider w))
  /\ memberlist.Name Example.node2 = Sprintf_d 2
  /\ 2 <> Config.ID (Config (receiver w))
  /\ In (go_sendToNode Example.node2 (Example.bytes_of Example.hello))
       (spawned (snd (BroadcastString Codec.encode (Some "hello") w))).
Proof.
  intro w.
  assert (Hin : In Example.node2 (memberlist.Members (provider w)))
    by (right; left; reflexivity).
  assert (Hid : 2 <> Config.ID (Config (receiver w))) by discriminate.
  repeat (split; [first [reflexivity | exact Hin | exact Hid]|]).
  destruct (Broadcast_reaches_other_ids Example.Bytes Codec.encode w
              Example.node2 2 eq_refl Hin eq_refl Hid)
    as [Hstring _].
  exact (Hstring "hello" (Example.bytes_of Example.hello) eq_refl).
Defined.

Lemma calls_keep_the_name_witness :
  let cs := [call_NotifyJoin None; call_GetBroadcasts 0 0;
             call_SetMessageHandler (Some Example.Accepting); call_Start] in
  New Example.config1 = inl (Example.fresh Example.config1)
  /\ name (receiver
             (after_calls Example.ParseMessage Example.Bytes Codec.encode
                Codec.decode cs (Example.fresh Example.config1)))
     = "1".
Proof.
  intro cs. split; [reflexivity|].
  destruct (calls_keep_the_name (provider_ops := Example.scripted_ops)
              Example.ParseMessage Example.Bytes
              Codec.encode Codec.decode Example.config1
              (Example.fresh Example.config1) cs eq_refl)
    as [Hconfig Hname].
  rewrite Hname, Hconfig. reflexivity.
Defined.

Lemma GetBroadcasts_always_empty_witness :
  let cs := [call_BroadcastString (Some "hello"); call_NotifyMsg []] in
  New Example.config1 = inl (Example.fresh Example.config1)
  /\ fst (GetBroadcasts 0 0
            (after_calls Example.ParseMessage Example.Bytes Codec.encode
               Codec.decode cs (Example.fresh Example.config1)))
     = Returned [].
Proof.
  intro cs. split; [reflexivity|].
  exact (GetBroadcasts_always_empty (provider_ops := Example.scripted_ops)
              Example.ParseMessage Example.Bytes
           Codec.encode Codec.decode Example.config1
           (Example.fresh Example.config1) cs 0 0 eq_refl).
Defined.

Lemma no_join_before_handler_witness :
  let cs := [call_Start; call_SetMessageHandler None; call_Start] in
  New Example.config1 = inl (Example.fresh Example.config1)
  /\ (forall h, ~ In (call_SetMessageHandler (Some h)) cs)
  /\ join_attempts
       (trace
          (after_calls Example.ParseMessage Example.Bytes Codec.encode
             Codec.decode cs (Example.fresh Example.config1)))
     = [].
Proof.
  intro cs.
  assert (Hset : forall h : Example.accepting,
             ~ In (call_SetMessageHandler (Some h)) cs).
  { intros h [Hc|[Hc|[Hc|[]]]]; discriminate. }
  split; [reflexivity|]. split; [exact Hset|].
  exact (no_join_before_handler (provider_ops := Example.scripted_ops)
              Example.ParseMessage Example.Bytes
           Codec.encode Codec.decode Example.config1
           (Example.fresh Example.config1) cs eq_refl Hset).
Defined.

Lemma counters_count_notifications_witness :
  let cs := [call_NotifyJoin (Some Example.node2); call_NotifyJoin None;
             call_NotifyLeave (Some Example.node2)] in
  New Example.config1 = inl (Example.fresh Example.config1)
  /\ numJoins
       (receiver
          (after_calls Example.ParseMessage Example.Bytes Codec.encode
             Codec.decode cs (Example.fresh Example.config1)))
     = 2.
Proof.
  intro cs. split; [reflexivity|].
  destruct (counters_count_notifications (provider_ops := Example.scripted_ops)
              Example.ParseMessage Example.Bytes
              Codec.encode Codec.decode Example.config1
              (Example.fresh Example.config1) cs eq_refl)
    as (_ & _ & _ & Hexact).
  exact (Hexact eq_refl).
Defined.

Lemma broadcast_reaches_peer_handler_witness :
  let wA := Example.world1 (Some Example.Accepting) (1, None) in
  let body := Body Example.publish1 in
  Example.Bytes (Some body) = Returned body
  /\ Codec.encode Example.publish1
     = inl (Example.bytes_of Example.publish1)
  /\ Codec.decode (Example.bytes_of Example.publish1)
     = inl Example.publish1
  /\ Example.ParseMessage body = inl body
  /\ MessageHandler (receiver Example.world2) = Some Example.Accepting
  /\ exists wA' started,
       BroadcastMessage Example.Bytes Codec.encode (Some body) wA
       = (Returned None, wA')
       /\ spawned wA' = started
       /\ forall node msgBytes,
            In (go_sendToNode node msgBytes) started ->
            exists r wB',
              NotifyMsg Example.ParseMessage Codec.decode msgBytes
                Example.world2
              = (r, wB')
              /\ handled (trace wB') = [(Example.Accepting, body)].
Proof.
  intros wA body.
  assert (Hdecode :
            Codec.decode (Example.bytes_of Example.publish1)
            = inl Example.publish1) by (vm_compute; reflexivity).
  repeat (split; [first [exact Hdecode | reflexivity]|]).
  destruct (broadcast_reaches_peer_handler Example.ParseMessage Example.Bytes
              Codec.encode Codec.decode wA Example.world2 (Some body) body
              (Example.bytes_of Example.publish1) body Example.Accepting
              eq_refl eq_refl Hdecode eq_refl eq_refl)
    as (wA' & started & Hrun & Hspawned & _ & Hpeer).
  exists wA', started. split; [exact Hrun|]. split; [exact Hspawned|].
  exact Hpeer.
Defined.

(** ** The paths of subscription requests *)

Module apnsFacts.
Import strings apns.

Import Ascii.
Local Open Scope string_scope.
Local Open Scope nat_scope.

Lemma prefix_iff (p s : string) :
  String.prefix p s = true <-> exists r, s = p ++ r.
Proof.
  revert s. induction p as [|c p IH]; intro s.
  - destruct s; cbn; (split; [intros _; eexists; reflexivity | reflexivity]).
  - destruct s as [|c' s]; cbn.
    + split; [discriminate | intros [r Hr]; discriminate].
    + destruct (Ascii.ascii_dec c c') as [->|Hne].
      * rewrite IH. split; intros [r Hr]; exists r; congruence.
      * split; [discriminate | intros [r Hr]; congruence].
Qed.

Lemma substring_all (s : string) : substring 0 (String.length s) s = s.
Proof. induction s as [|c s IH]; cbn; [reflexivity | now rewrite IH]. Qed.

Lemma string_length_app (p r : string) :
  String.length (p ++ r) = (String.length p + String.length r).
Proof. induction p as [|c p IH]; cbn; [reflexivity | now rewrite IH]. Qed.

Lemma substring_after (p r : string) :
  substring (String.length p)
    (String.length (p ++ r) - String.length p) (p ++ r) = r.
Proof.
  rewrite string_length_app.
  replace (String.length p + String.length r - String.length p)
    with (String.length r) by lia.
  induction p as [|c p IH]; cbn; [apply substring_all | exact IH].
Qed.

Lemma TrimPrefix_app (p r : string) : TrimPrefix (p ++ r) p = r.
Proof.
  unfold TrimPrefix, HasPrefix.
  rewrite (proj2 (prefix_iff p (p ++ r))) by (exists r; reflexivity).
  apply substring_after.
Qed.

Lemma cut_sound (sep : Ascii.ascii) (s : string) :
  forall a b,
    cut sep s = Some (a, b) ->
    s = a ++ String sep b /\ has_byte sep a = false.
Proof.
  induction s as [|c s IH]; intros a b; cbn; [discriminate|].
  destruct (Ascii.eqb_spec c sep) as [->|Hne].
  - intros [= <- <-]. split; reflexivity.
  - destruct (cut sep s) as [[a' b']|]; [|discriminate].
    intros [= <- <-]. destruct (IH a' b' eq_refl) as [-> Hno].
    split; [reflexivity|]. cbn. rewrite Hno.
    destruct (Ascii.eqb_spec c sep); [contradiction|reflexivity].
Qed.

Lemma cut_complete (sep : Ascii.ascii) (a b : string) :
  has_byte sep a = false -> cut sep (a ++ String sep b) = Some (a, b).
Proof.
  induction a as [|c a IH]; cbn.
  - intros _. rewrite Ascii.eqb_refl. reflexivity.
  - destruct (Ascii.eqb c sep); cbn; [discriminate|].
    intro Hno. rewrite (IH Hno). reflexivity.
Qed.

(** X17.  [parseTopic] accepts exactly the paths that start with
    [subscribe/]; the topic it returns is the rest of the path with its
    leading slash, and every other path gets the error and no topic. *)
Theorem parseTopic_subscribe (unparsedPath : string) :
  (exists rest,
      unparsedPath = "subscribe/" ++ rest
      /\ parseTopic unparsedPath = ("/" ++ rest, None))
  \/ ((forall rest, unparsedPath <> "subscribe/" ++ rest)
      /\ parseTopic unparsedPath
         = ("", errors_New "APNS request third param is not subscribe")).
Proof.
  unfold parseTopic, HasPrefix.
  destruct (String.prefix (subscribePrefixPath ++ "/") unparsedPath) eqn:Hp.
  - left. apply prefix_iff in Hp. destruct Hp as [rest ->].
    exists rest. split; [reflexivity|]. cbn [negb].
    change ((subscribePrefixPath ++ "/") ++ rest)
      with (subscribePrefixPath ++ ("/" ++ rest)).
    rewrite TrimPrefix_app. reflexivity.
  - right. split; [|reflexivity].
    intros rest ->.
    rewrite (proj2 (prefix_iff _ _)) in Hp; [discriminate|].
    exists rest. reflexivity.
Qed.

Lemma last_byte (path : string) (c : Ascii.ascii) :
  get (String.length path - 1) path = Some c ->
  path = substring 0 (String.length path - 1) path ++ String c "".
Proof.
  induction path as [|c' path IH]; cbn; [discriminate|].
  rewrite Nat.sub_0_r.
  destruct path as [|c'' path].
  - cbn. intros [= ->]. reflexivity.
  - cbn [String.length] in *. cbn [get substring].
    replace (S (String.length path) - 1) with (String.length path)
      in IH by lia.
    intro Hget. cbn [append]. f_equal.
    destruct (String.length path) eqn:Hl.
    + apply IH. exact Hget.
    + apply IH. exact Hget.
Qed.

Lemma get_last (r : string) (c : Ascii.ascii) :
  get (String.length r) (r ++ String c "") = Some c.
Proof. induction r as [|c' r IH]; cbn; [reflexivity | exact IH]. Qed.

Lemma substring_before (r t : string) :
  substring 0 (String.length r) (r ++ t) = r.
Proof.
  induction r as [|c r IH]; cbn; [destruct t; reflexivity | now rewrite IH].
Qed.

Lemma removeTrailingSlash_slash (r : string) :
  r <> "" -> removeTrailingSlash (r ++ "/") = r.
Proof.
  intro Hr. unfold removeTrailingSlash.
  rewrite string_length_app. cbn [String.length].
  replace (String.length r + 1 - 1) with (String.length r) by lia.
  rewrite get_last, substring_before, Ascii.eqb_refl, andb_true_r.
  destruct (Nat.ltb_spec 1 (String.length r + 1)); [reflexivity|].
  destruct r as [|c r]; [contradiction|]. cbn [String.length] in *. lia.
Qed.

(** X18.  [removeTrailingSlash] removes one trailing slash from a path of
    more than one byte and leaves every other path, the path of one slash
    and the empty path among them, as it is. *)
Theorem removeTrailingSlash_one :
  (forall r, r <> "" -> removeTrailingSlash (r ++ "/") = r)
  /\ (forall path,
        (forall r, r <> "" -> path <> r ++ "/") ->
        removeTrailingSlash path = path).
Proof.
  split; [exact removeTrailingSlash_slash|].
  intros path Hnot. unfold removeTrailingSlash.
  destruct (Nat.ltb_spec 1 (String.length path)) as [Hlen|]; [|reflexivity].
  destruct (get (String.length path - 1) path) as [c|] eqn:Hget;
    [|reflexivity].
  destruct (Ascii.eqb_spec c "/"%char) as [->|]; [|reflexivity].
  exfalso. apply last_byte in Hget.
  apply (Hnot (substring 0 (String.length path - 1) path)); [|exact Hget].
  intro Hempty. rewrite Hempty in Hget. rewrite Hget in Hlen.
  cbn in Hlen. lia.
Qed.

(** X19.  [parseUserIDAndDeviceID] succeeds with a user, a device and a
    rest exactly when the path, less its trailing slash, is the prefix of
    the connector, the user, a slash, the device, a slash and the rest,
    with no slash in the user or in the device. *)
Theorem parseUserIDAndDeviceID_iff (conn : Connector)
    (path userID apnsID unparsedPath : string) :
  parseUserIDAndDeviceID conn path = (userID, apnsID, unparsedPath, None)
  <-> removeTrailingSlash path
      = prefix conn ++ userID ++ "/" ++ apnsID ++ "/" ++ unparsedPath
      /\ has_byte "/"%char userID = false
      /\ has_byte "/"%char apnsID = false.
Proof.
  unfold parseUserIDAndDeviceID, HasPrefix. split.
  - destruct (String.prefix (prefix conn) (removeTrailingSlash path)) eqn:Hp;
      [|discriminate].
    apply prefix_iff in Hp. destruct Hp as [r Hr]. rewrite Hr.
    rewrite TrimPrefix_app. cbn [negb SplitN split_upto].
    destruct (cut "/"%char r) as [[u r1]|] eqn:Hu; [|discriminate].
    destruct (cut "/"%char r1) as [[a r2]|] eqn:Ha; [|discriminate].
    intros [= <- <- <-].
    apply cut_sound in Hu. destruct Hu as [-> Hnou].
    apply cut_sound in Ha. destruct Ha as [-> Hnoa].
    repeat split; assumption.
  - intros (Hpath & Hnou & Hnoa). rewrite Hpath.
    rewrite (proj2 (prefix_iff _ _)) by (eexists; reflexivity).
    rewrite TrimPrefix_app. cbn [negb SplitN split_upto].
    change (userID ++ "/" ++ apnsID ++ "/" ++ unparsedPath)
      with (userID ++ String "/"%char (apnsID ++ String "/"%char unparsedPath)).
    rewrite (cut_complete _ _ _ Hnou), (cut_complete _ _ _ Hnoa).
    reflexivity.
Qed.

(** X20.  A slash added at the end of a path that has none to remove does
    not change what [parseUserIDAndDeviceID] returns. *)
Theorem trailing_slash_ignored (conn : Connector) (path : string) :
  path <> "" ->
  removeTrailingSlash path = path ->
  parseUserIDAndDeviceID conn (path ++ "/")
  = parseUserIDAndDeviceID conn path.
Proof.
  intros Hne Hsame. unfold parseUserIDAndDeviceID.
  rewrite (removeTrailingSlash_slash path Hne), Hsame. reflexivity.
Qed.

End apnsFacts.

Lemma trailing_slash_ignored_witness :
  let conn := {| apns.prefix := "/apns/" |} in
  let path := "/apns/user1/device1/subscribe/foo" in
  path <> ""
  /\ apns.removeTrailingSlash path = path
  /\ apns.parseUserIDAndDeviceID conn (path ++ "/")
     = ("user1", "device1", "subscribe/foo", None).
Proof.
  intros conn path.
  assert (Hne : path <> "") by discriminate.
  split; [exact Hne|]. split; [reflexivity|].
  rewrite (apnsFacts.trailing_slash_ignored conn path Hne eq_refl).
  reflexivity.
Defined.
